(** * cpremote: a shallow embedding of [src/cpremote/cpremote.py]

    cpremote is a command-line client for the CircuitPython web workflow:
    every sub-command builds a URL, issues one HTTP request through
    [requests.request], and prints a message chosen by the response status.

    The embedding follows the source function by function.  Python values
    that come out of [json.loads] are modelled by [pyval]; Python [str]s are
    Rocq [string]s, each character standing for one code point below 256;
    Python [float]s are IEEE binary64 numbers ([spec_float] with precision
    53); [print] appends to a list of printed texts; exceptions are an
    explicit [Raise] outcome that stops the computation and leaves the
    state reached so far.  The network, the local clock and time zone, and
    the JSON decoder are the environment of the program and are taken as
    section variables; concrete instances ([parse_json], [gmtime]) are
    supplied for evaluation. *)

From Stdlib Require Import ZArith List String Ascii Bool Lia DecimalString.
From Stdlib Require Import Floats.SpecFloat.
From stdpp Require Import base gmap strings.

Open Scope Z_scope.

(** Text is concatenated by [+:+]; its equations unfold under [simpl]. *)
#[local] Arguments String.append !_ _ / : simpl nomatch.

(** ** Text *)

(** [str(n)] for a Python [int]. *)
Definition str_int (z : Z) : string := NilZero.string_of_int (Z.to_int z).

(** [s.startswith(p)] *)
Fixpoint startswith (s p : string) {struct p} : bool :=
  match p, s with
  | EmptyString, _ => true
  | String a p', String b s' => Ascii.eqb a b && startswith s' p'
  | String _ _, EmptyString => false
  end.

(** [s.endswith(suffix)] *)
Fixpoint endswith (s suffix : string) : bool :=
  String.eqb s suffix ||
  match s with
  | EmptyString => false
  | String _ s' => endswith s' suffix
  end.

(** [sub in s] *)
Fixpoint contains (s sub : string) : bool :=
  startswith s sub ||
  match s with
  | EmptyString => false
  | String _ s' => contains s' sub
  end.

(** [sep.join(parts)] *)
Fixpoint join (sep : string) (parts : list string) : string :=
  match parts with
  | [] => ""
  | [p] => p
  | p :: rest => p +:+ sep +:+ join sep rest
  end.

(** [c * n] for a one-character pad [c]. *)
Fixpoint replicate_char (n : nat) (c : ascii) : string :=
  match n with
  | O => ""
  | S n' => String c (replicate_char n' c)
  end.

(** [s * n] for a text [s]. *)
Fixpoint repeat_string (n : nat) (s : string) : string :=
  match n with
  | O => ""
  | S n' => s +:+ repeat_string n' s
  end.

(** Zero padding on the left up to [width] characters, as [%02d] does. *)
Definition zero_pad (width : nat) (s : string) : string :=
  replicate_char (width - String.length s) "0" +:+ s.

Definition hex_digit (d : Z) : ascii :=
  if d <? 10 then ascii_of_nat (Z.to_nat (48 + d))
  else ascii_of_nat (Z.to_nat (87 + d)).

(** Two lower-case hexadecimal digits of a code point below 256. *)
Definition hex2 (c : ascii) : string :=
  let n := Z.of_nat (nat_of_ascii c) in
  String (hex_digit (n / 16)) (String (hex_digit (n mod 16)) "").

(** ** Floats

    A Python [float] is a binary64 number.  [spec_float] with [prec = 53]
    and [emax = 1024] is the Standard Library's executable specification of
    that format. *)

Definition prec : Z := 53.
Definition emax : Z := 1024.

(** The binary64 number nearest to [n / d] (ties to even).  The division of
    [SpecFloat] shifts the numerator until the quotient has [prec] bits and
    rounds with the remainder, so it is exact for integers of any size. *)
Definition float_of_ratio (neg : bool) (n d : positive) : spec_float :=
  SFdiv prec emax (S754_finite neg n 0) (S754_finite false d 0).

(** The binary64 number nearest to an integer. *)
Definition float_of_int (z : Z) : spec_float :=
  binary_normalize prec emax z 0 false.

Definition float_is_finite (f : spec_float) : bool :=
  match f with
  | S754_zero _ | S754_finite _ _ _ => true
  | _ => false
  end.

(** [math.floor(f)] for a finite [f]. *)
Definition float_floor (f : spec_float) : Z :=
  match f with
  | S754_finite s m e =>
      let n := if s then Zneg m else Zpos m in
      if 0 <=? e then n * 2 ^ e else n / 2 ^ (- e)
  | _ => 0
  end.

(** [n / d * 10 ^ p] as a fraction. *)
Definition scale10 (n d p : Z) : Z * Z :=
  if 0 <=? p then (n * 10 ^ p, d) else (n, d * 10 ^ (- p)).

(** The least [k' >= k] with [n / d < 10 ^ k']. *)
Fixpoint find_decpt (fuel : nat) (n d k : Z) : Z :=
  match fuel with
  | O => k
  | S fuel' =>
      let '(n', d') := scale10 n d (- k) in
      if n' <? d' then k else find_decpt fuel' n d (k + 1)
  end.

(** A power of ten not above [m * 2 ^ e], from the binary magnitude [b] with
    [2 ^ b <= m * 2 ^ e]: [10 ^ (b / 4) <= 16 ^ (b / 4) <= 2 ^ b] when
    [0 <= b], and [10 ^ (b / 3) <= 8 ^ (b / 3) <= 2 ^ b] when [b < 0]
    (the quotients round down). *)
Definition decpt_lower_bound (m : positive) (e : Z) : Z :=
  let b := Zpos (digits2_pos m) + e - 1 in
  if 0 <=? b then b / 4 else b / 3.

(** Does the decimal [digits * 10 ^ p] read back as the float [m * 2 ^ e]? *)
Definition reads_back (digits p : Z) (m : positive) (e : Z) : bool :=
  let '(a, b) := scale10 digits 1 p in
  match a, b with
  | Zpos a', Zpos b' =>
      match float_of_ratio false a' b' with
      | S754_finite _ m' e' => Pos.eqb m m' && Z.eqb e e'
      | _ => false
      end
  | _, _ => false
  end.

(** The shortest decimal that reads back as [m * 2 ^ e], searched by
    increasing number of digits; among the two [ndig]-digit neighbours of
    the value the one that reads back, and the nearer when both do.
    The result is the digit number and the power of ten it is scaled by. *)
Fixpoint shortest_digits (fuel : nat) (ndig : Z) (n d k : Z) (m : positive) (e : Z)
  : Z * Z :=
  let '(n', d') := scale10 n d (ndig - k) in
  let lo := n' / d' in
  let hi := lo + 1 in
  let r := n' mod d' in
  let p := k - ndig in
  let lo_ok := reads_back lo p m e in
  let hi_ok := reads_back hi p m e in
  let lo_nearer := (2 * r <? d') || ((2 * r =? d') && Z.even lo) in
  match fuel with
  | O => (if lo_nearer then lo else hi, p)
  | S fuel' =>
      if lo_ok && (lo_nearer || negb hi_ok) then (lo, p)
      else if hi_ok then (hi, p)
      else shortest_digits fuel' (ndig + 1) n d k m e
  end.

(** Trailing zeros of a digit number move into the power of ten. *)
Fixpoint strip_zeros (fuel : nat) (digits p : Z) : Z * Z :=
  match fuel with
  | O => (digits, p)
  | S fuel' =>
      if (digits mod 10 =? 0) && (0 <? digits)
      then strip_zeros fuel' (digits / 10) (p + 1)
      else (digits, p)
  end.

(** The digits of [repr] and the position of the decimal point: the value
    is [0.d1d2...dn * 10 ^ decpt]. *)
Definition float_digits (m : positive) (e : Z) : string * Z :=
  let '(n, d) := if 0 <=? e then (Zpos m * 2 ^ e, 1) else (Zpos m, 2 ^ (- e)) in
  let k := find_decpt 64 n d (decpt_lower_bound m e) in
  let '(digits, p) := shortest_digits 16 1 n d k m e in
  let '(digits, p) := strip_zeros 20 digits p in
  let s := str_int digits in
  (s, p + Z.of_nat (String.length s)).

(** The text of the decimal exponent: a sign and at least two digits. *)
Definition exponent_text (x : Z) : string :=
  (if x <? 0 then "-" else "+") +:+ zero_pad 2 (str_int (Z.abs x)).

(** [repr(f)] of a positive finite float from its digits: exponent form when
    the decimal point falls more than 16 places right or 4 or more places
    left of the first digit, positional form with at least one digit after
    the point otherwise. *)
Definition format_float_short (digits : string) (decpt : Z) : string :=
  let n := Z.of_nat (String.length digits) in
  if (decpt <=? -4) || (16 <? decpt) then
    match digits with
    | EmptyString => ""
    | String d1 rest =>
        String d1 (if String.eqb rest "" then "" else "." +:+ rest)
        +:+ "e" +:+ exponent_text (decpt - 1)
    end
  else if decpt <=? 0 then
    "0." +:+ replicate_char (Z.to_nat (- decpt)) "0" +:+ digits
  else if decpt <? n then
    substring 0 (Z.to_nat decpt) digits +:+ "." +:+
    substring (Z.to_nat decpt) (Z.to_nat (n - decpt)) digits
  else
    digits +:+ replicate_char (Z.to_nat (decpt - n)) "0" +:+ ".0".

(** [repr(f)], which is also [str(f)], for a Python float. *)
Definition float_repr (f : spec_float) : string :=
  match f with
  | S754_zero s => if s then "-0.0" else "0.0"
  | S754_infinity s => if s then "-inf" else "inf"
  | S754_nan => "nan"
  | S754_finite s m e =>
      let '(digits, decpt) := float_digits m e in
      (if s then "-" else "") +:+ format_float_short digits decpt
  end.

(** ** Python values

    What [json.loads] returns: [None], booleans, integers, floats, strings,
    lists, and dictionaries with string keys.  A dictionary keeps its items
    in insertion order, which is the order [json.dumps] and [str] print. *)

#[local] Set Warnings "-register-all".

Inductive pyval :=
| PNone
| PBool (b : bool)
| PInt (z : Z)
| PFloat (f : spec_float)
| PStr (s : string)
| PList (items : list pyval)
| PDict (items : list (string * pyval)).

Definition squote : ascii := "'"%char.
Definition dquote : ascii := "034"%char.
Definition backslash : ascii := "\"%char.
Definition tab : ascii := "009"%char.
Definition newline : ascii := "010"%char.
Definition creturn : ascii := "013"%char.

Definition char_in (c : ascii) (s : string) : bool := contains s (String c "").

(** [ch.isprintable()] for a code point from 128 to 255: the C1 controls, the
    no-break space and the soft hyphen are not printable. *)
Definition latin1_printable (c : ascii) : bool :=
  let n := Z.of_nat (nat_of_ascii c) in
  (161 <=? n) && negb (n =? 173).

Definition repr_char (quote c : ascii) : string :=
  let n := Z.of_nat (nat_of_ascii c) in
  if Ascii.eqb c quote || Ascii.eqb c backslash then String backslash (String c "")
  else if Ascii.eqb c tab then String backslash "t"
  else if Ascii.eqb c newline then String backslash "n"
  else if Ascii.eqb c creturn then String backslash "r"
  else if (n <? 32) || (n =? 127) then String backslash "x" +:+ hex2 c
  else if n <? 127 then String c ""
  else if latin1_printable c then String c ""
  else String backslash "x" +:+ hex2 c.

Fixpoint repr_chars (quote : ascii) (s : string) : string :=
  match s with
  | EmptyString => ""
  | String c s' => repr_char quote c +:+ repr_chars quote s'
  end.

(** [repr(s)] for a [str]: single quotes, unless the text has a single
    quote and no double quote. *)
Definition str_repr (s : string) : string :=
  let quote := if char_in squote s && negb (char_in dquote s) then dquote else squote in
  String quote (repr_chars quote s) +:+ String quote "".

(** [repr(v)] *)
Fixpoint py_repr (v : pyval) : string :=
  match v with
  | PNone => "None"
  | PBool b => if b then "True" else "False"
  | PInt z => str_int z
  | PFloat f => float_repr f
  | PStr s => str_repr s
  | PList items => "[" +:+ join ", " (List.map py_repr items) +:+ "]"
  | PDict items =>
      "{" +:+
      join ", " (List.map (fun kv => str_repr (fst kv) +:+ ": " +:+ py_repr (snd kv)) items)
      +:+ "}"
  end.

(** [str(v)], which is what an f-string field [{v}] inserts. *)
Definition py_str (v : pyval) : string :=
  match v with
  | PStr s => s
  | _ => py_repr v
  end.

(** Truth value of [v], as [if v] tests it. *)
Definition py_truthy (v : pyval) : bool :=
  match v with
  | PNone => false
  | PBool b => b
  | PInt z => negb (z =? 0)
  | PFloat (S754_zero _) => false
  | PFloat _ => true
  | PStr s => negb (String.eqb s "")
  | PList items => match items with [] => false | _ => true end
  | PDict items => match items with [] => false | _ => true end
  end.

(** [units == name] for the configured units, which are [None] when unset. *)
Definition opt_str_eqb (o : option string) (s : string) : bool :=
  match o with
  | Some x => String.eqb x s
  | None => false
  end.

(** ** Exceptions *)

(** The ways [requests.request] fails without a response; each is raised as
    a subclass of [requests.exceptions.RequestException]. *)
Inductive request_error :=
| ConnectionRefused
| NameResolutionFailed
| TimedOut
| InvalidURL.

Inductive exn :=
| KeyError (key : string)
| TypeError
| ValueError
| OverflowError
| JSONDecodeError
| OSError (path : string)
| RequestException (e : request_error).

Inductive result (A : Type) :=
| Ok (a : A)
| Raise (e : exn).
Arguments Ok {A} a.
Arguments Raise {A} e.

(** ** Operations on Python values *)

(** [d[key]] for a string [key]: only a dictionary has string keys. *)
Fixpoint assoc (key : string) (items : list (string * pyval)) : option pyval :=
  match items with
  | [] => None
  | (k, v) :: rest => if String.eqb k key then Some v else assoc key rest
  end.

Definition py_getitem (v : pyval) (key : string) : result pyval :=
  match v with
  | PDict items =>
      match assoc key items with
      | Some x => Ok x
      | None => Raise (KeyError key)
      end
  | _ => Raise TypeError
  end.

Fixpoint chars_of (s : string) : list pyval :=
  match s with
  | EmptyString => []
  | String c s' => PStr (String c "") :: chars_of s'
  end.

(** The items a [for] loop over [v] visits. *)
Definition py_iter (v : pyval) : result (list pyval) :=
  match v with
  | PList items => Ok items
  | PStr s => Ok (chars_of s)
  | PDict items => Ok (List.map (fun kv => PStr (fst kv)) items)
  | _ => Raise TypeError
  end.

(** An [int] as a [float]; too large an [int] raises [OverflowError]. *)
Definition float_of_int_checked (z : Z) : result spec_float :=
  let f := float_of_int z in
  if float_is_finite f then Ok f else Raise OverflowError.

Definition int_of_bool (b : bool) : Z := if b then 1 else 0.

(** [v / n] for a non-zero [int] literal [n]: true division, whose result
    is always a float.  Two integers divide exactly and round once; a float
    divides by the float of [n]. *)
Definition py_truediv_int (v : pyval) (n : positive) : result spec_float :=
  let int_case (z : Z) :=
    match z with
    | Z0 => Ok (S754_zero false)
    | Zpos p =>
        let f := float_of_ratio false p n in
        if float_is_finite f then Ok f else Raise OverflowError
    | Zneg p =>
        let f := float_of_ratio true p n in
        if float_is_finite f then Ok f else Raise OverflowError
    end in
  match v with
  | PInt z => int_case z
  | PBool b => int_case (int_of_bool b)
  | PFloat f =>
      match float_of_int_checked (Zpos n) with
      | Ok d => Ok (SFdiv prec emax f d)
      | Raise e => Raise e
      end
  | _ => Raise TypeError
  end.

(** The largest repetition count a sequence accepts ([sys.maxsize]); a count
    that does not fit an index raises [OverflowError].  Memory is not
    modelled: a count that fits gives the repeated sequence. *)
Definition maxsize : Z := 2 ^ 63 - 1.

Definition repeat_list {A} (n : nat) (l : list A) : list A :=
  List.concat (List.repeat l n).

(** [a * b]: numbers multiply (in [float] as soon as one is a float), a
    string or list is repeated by an integer, anything else is a
    [TypeError]. *)
Definition py_mul (a b : pyval) : result pyval :=
  let as_int (v : pyval) : option Z :=
    match v with
    | PInt z => Some z
    | PBool x => Some (int_of_bool x)
    | _ => None
    end in
  let float_mul (x : spec_float) (z : Z) (swap : bool) :=
    match float_of_int_checked z with
    | Ok y => Ok (PFloat (if swap then SFmul prec emax y x else SFmul prec emax x y))
    | Raise e => Raise e
    end in
  let seq_mul (z : Z) (rep : nat -> pyval) :=
    if (maxsize <? z) || (z <? - maxsize - 1) then Raise OverflowError
    else Ok (rep (Z.to_nat z)) in
  match a, b with
  | PFloat x, PFloat y => Ok (PFloat (SFmul prec emax x y))
  | PFloat x, _ =>
      match as_int b with
      | Some z => float_mul x z false
      | None => Raise TypeError
      end
  | _, PFloat y =>
      match as_int a with
      | Some z => float_mul y z true
      | None => Raise TypeError
      end
  | PStr s, _ =>
      match as_int b with
      | Some z => seq_mul z (fun n => PStr (repeat_string n s))
      | None => Raise TypeError
      end
  | PList l, _ =>
      match as_int b with
      | Some z => seq_mul z (fun n => PList (repeat_list n l))
      | None => Raise TypeError
      end
  | _, PStr s =>
      match as_int a with
      | Some z => seq_mul z (fun n => PStr (repeat_string n s))
      | None => Raise TypeError
      end
  | _, PList l =>
      match as_int a with
      | Some z => seq_mul z (fun n => PList (repeat_list n l))
      | None => Raise TypeError
      end
  | _, _ =>
      match as_int a, as_int b with
      | Some x, Some y => Ok (PInt (x * y))
      | _, _ => Raise TypeError
      end
  end.

(** ** Time *)

(** [time.struct_time], the fields the program reads. *)
Record struct_time := {
  tm_year : Z;
  tm_mon : Z;
  tm_mday : Z;
  tm_hour : Z;
  tm_min : Z;
  tm_sec : Z
}.

Definition month_names : list string :=
  ["Jan"; "Feb"; "Mar"; "Apr"; "May"; "Jun"; "Jul"; "Aug"; "Sep"; "Oct"; "Nov"; "Dec"].

(** The month abbreviation of the C locale, the locale a Python process
    formats times in unless it calls [setlocale]. *)
Definition month_abbr (mon : Z) : string :=
  nth (Z.to_nat (mon - 1)) month_names "?".

(** One conversion of [time.strftime]: the five the program uses. *)
Definition directive (c : ascii) (t : struct_time) : string :=
  if Ascii.eqb c "b" then month_abbr (tm_mon t)
  else if Ascii.eqb c "d" then zero_pad 2 (str_int (tm_mday t))
  else if Ascii.eqb c "H" then zero_pad 2 (str_int (tm_hour t))
  else if Ascii.eqb c "M" then zero_pad 2 (str_int (tm_min t))
  else if Ascii.eqb c "Y" then str_int (tm_year t)
  else String "%" (String c "").

(** [time.strftime(fmt, t)]: conversions are replaced, other characters are
    copied. *)
Fixpoint strftime (fmt : string) (t : struct_time) : string :=
  match fmt with
  | EmptyString => ""
  | String c rest =>
      if Ascii.eqb c "%" then
        match rest with
        | String d rest' => directive d t +:+ strftime rest' t
        | EmptyString => "%"
        end
      else String c (strftime rest t)
  end.

(** ** HTTP *)

(** The arguments of one call of [requests.request]. *)
Record Request := {
  method : string;
  url : string;
  auth : option (string * string);
  headers : list (string * string);
  data : option string;
  timeout : option Z
}.

(** The part of a [requests.Response] the program reads. *)
Record Response := {
  status_code : Z;
  text : string
}.

Inductive net_outcome :=
| Responded (r : Response)
| Failed (e : request_error).

(** [HTTPBasicAuth('', password)] *)
Definition HTTPBasicAuth (username password : string) : option (string * string) :=
  Some (username, password).

(** ** The state of a run and the monad of the program *)

Record World := {
  stdout : list string;              (* the texts printed, oldest first *)
  sent : list Request;               (* the calls of requests.request, oldest first *)
  local_files : gmap string string;  (* the local files, by path *)
  opened : list string;              (* the URLs handed to the web browser *)
  clock_reads : nat                  (* how often the clock was read *)
}.

Definition initial_world (files : gmap string string) : World :=
  {| stdout := []; sent := []; local_files := files; opened := []; clock_reads := 0 |}.

Definition M (A : Type) : Type := World -> result A * World.

Definition ret {A} (a : A) : M A := fun w => (Ok a, w).

Definition raise {A} (e : exn) : M A := fun w => (Raise e, w).

Definition bind {A B} (c : M A) (k : A -> M B) : M B :=
  fun w =>
    match c w with
    | (Ok a, w') => k a w'
    | (Raise e, w') => (Raise e, w')
    end.

(** A pure computation that may raise. *)
Definition lift {A} (r : result A) : M A := fun w => (r, w).

Declare Scope py_scope.
Delimit Scope py_scope with py.
Notation "x <- c ;; k" := (bind c (fun x => k))
  (at level 20, c at level 99, k at level 200) : py_scope.
Notation "' pat <- c ;; k" := (bind c (fun x => match x with pat => k end))
  (at level 20, pat pattern, c at level 99, k at level 200) : py_scope.
Notation "c ;; k" := (bind c (fun _ => k))
  (at level 100, k at level 200, right associativity) : py_scope.
Open Scope py_scope.

(** The world after one more text was printed. *)
Definition printed (s : string) (w : World) : World :=
  {| stdout := stdout w ++ [s]; sent := sent w; local_files := local_files w;
     opened := opened w; clock_reads := clock_reads w |}.

(** The world after one more call of [requests.request]. *)
Definition requested (r : Request) (w : World) : World :=
  {| stdout := stdout w; sent := sent w ++ [r]; local_files := local_files w;
     opened := opened w; clock_reads := clock_reads w |}.

(** The world after one more reading of the clock. *)
Definition ticked (w : World) : World :=
  {| stdout := stdout w; sent := sent w; local_files := local_files w;
     opened := opened w; clock_reads := S (clock_reads w) |}.

(** [print(s)] *)
Definition print (s : string) : M unit :=
  fun w => (Ok tt, printed s w).

(** [with open(path, 'r', encoding='utf-8') as file: file.read()] *)
Definition read_file (path : string) : M string :=
  fun w =>
    match local_files w !! path with
    | Some content => (Ok content, w)
    | None => (Raise (OSError path), w)
    end.

(** [webbrowser.open(url)] *)
Definition webbrowser_open (u : string) : M unit :=
  fun w =>
    (Ok tt,
     {| stdout := stdout w; sent := sent w; local_files := local_files w;
        opened := opened w ++ [u]; clock_reads := clock_reads w |}).

(** Sequencing a loop body over the items of a list, as [for x in l]. *)
Fixpoint for_each {A} (l : list A) (body : A -> M unit) : M unit :=
  match l with
  | [] => ret tt
  | x :: rest => body x ;; for_each rest body
  end.

(** ** [json.dumps] *)

Definition hex4 (c : ascii) : string := "00" +:+ hex2 c.

(** One character of a JSON string with [ensure_ascii]: everything outside
    the printable ASCII range is escaped. *)
Definition json_char (c : ascii) : string :=
  let n := Z.of_nat (nat_of_ascii c) in
  if Ascii.eqb c dquote then String backslash (String dquote "")
  else if Ascii.eqb c backslash then String backslash (String backslash "")
  else if Ascii.eqb c newline then String backslash "n"
  else if Ascii.eqb c creturn then String backslash "r"
  else if Ascii.eqb c tab then String backslash "t"
  else if n =? 8 then String backslash "b"
  else if n =? 12 then String backslash "f"
  else if (32 <=? n) && (n <=? 126) then String c ""
  else String backslash "u" +:+ hex4 c.

Fixpoint json_chars (s : string) : string :=
  match s with
  | EmptyString => ""
  | String c s' => json_char c +:+ json_chars s'
  end.

Definition json_string (s : string) : string :=
  String dquote (json_chars s) +:+ String dquote "".

Definition json_float (f : spec_float) : string :=
  match f with
  | S754_nan => "NaN"
  | S754_infinity s => if s then "-Infinity" else "Infinity"
  | _ => float_repr f
  end.

(** A line break followed by the indentation of nesting depth [level]. *)
Definition newline_indent (indent level : nat) : string :=
  String newline (replicate_char (indent * level) " ").

(** The encoder of [json.dumps(v, indent=indent)] at nesting depth [level]:
    an empty container is written closed; the items of any other container
    stand one per line, one level deeper, separated by a comma, and the
    closing bracket is on a line of its own at the container's level. *)
Fixpoint json_encode (indent level : nat) (v : pyval) : string :=
  match v with
  | PNone => "null"
  | PBool b => if b then "true" else "false"
  | PInt z => str_int z
  | PFloat f => json_float f
  | PStr s => json_string s
  | PList items =>
      match items with
      | [] => "[]"
      | _ :: _ =>
          "[" +:+ newline_indent indent (S level) +:+
          join ("," +:+ newline_indent indent (S level))
               (List.map (json_encode indent (S level)) items)
          +:+ newline_indent indent level +:+ "]"
      end
  | PDict items =>
      match items with
      | [] => "{}"
      | _ :: _ =>
          "{" +:+ newline_indent indent (S level) +:+
          join ("," +:+ newline_indent indent (S level))
               (List.map (fun kv => json_string (fst kv) +:+ ": " +:+
                                    json_encode indent (S level) (snd kv)) items)
          +:+ newline_indent indent level +:+ "}"
      end
  end.

Definition json_dumps (indent : nat) (v : pyval) : string :=
  json_encode indent 0 v.

(** ** The operations *)

Section Operations.

(** The environment of a run: the remote end answering a request, the JSON
    decoder ([None] when it raises), the time zone ([None] when the
    platform has no local time for a timestamp), the clock at its
    successive readings, and which local paths can be opened for
    writing. *)
Variable net : Request -> net_outcome.
Variable json_loads : string -> option pyval.
Variable localtime : Z -> option struct_time.
Variable clock : nat -> Z.
Variable can_write : string -> bool.

(** The module's globals, set by [main] before any operation runs. *)
Variable cpremote_host : string.
Variable cpremote_password : string.
Variable cpremote_units : option string.

(** [requests.request(...)]: the call is recorded, then the remote end
    answers or the call raises. *)
Definition requests_request (r : Request) : M Response :=
  fun w =>
    match net r with
    | Responded resp => (Ok resp, requested r w)
    | Failed e => (Raise (RequestException e), requested r w)
    end.

(** [response.json()] and [json.loads(response.text)] *)
Definition decode_json (body : string) : M pyval :=
  match json_loads body with
  | Some v => ret v
  | None => raise JSONDecodeError
  end.

(** [with open(path, 'w', encoding='utf-8') as file: file.write(content)] *)
Definition write_file (path content : string) : M unit :=
  fun w =>
    if can_write path then
      (Ok tt,
       {| stdout := stdout w; sent := sent w;
          local_files := <[path := content]> (local_files w);
          opened := opened w; clock_reads := clock_reads w |})
    else (Raise (OSError path), w).

(** [time.localtime()] *)
Definition localtime_now : M struct_time :=
  fun w =>
    match localtime (clock (clock_reads w)) with
    | Some t => (Ok t, ticked w)
    | None => (Raise OverflowError, ticked w)
    end.

(** [time.localtime(secs)] for a float [secs]: the timestamp is rounded
    down to whole seconds. *)
Definition localtime_of (secs : spec_float) : M struct_time :=
  match secs with
  | S754_nan => raise ValueError
  | S754_infinity _ => raise OverflowError
  | _ =>
      match localtime (float_floor secs) with
      | Some t => ret t
      | None => raise OverflowError
      end
  end.

Definition unknown_message (response : Response) : string :=
  "Unknown " +:+ str_int (status_code response) +:+ ": " +:+ text response.

(** [get(src, dst)]: get a file from remote filesystem *)
Definition get (src : string) (dst : option string) : M unit :=
  let basic := HTTPBasicAuth "" cpremote_password in
  response <- requests_request
    {| method := "GET"; url := cpremote_host +:+ "/fs/" +:+ src; auth := basic;
       headers := []; data := None; timeout := None |} ;;
  if status_code response =? 200 then
    match dst with
    | None => print (text response)
    | Some path =>
        write_file path (text response) ;;
        print "File exists and file returned"
    end
  else if status_code response =? 401 then print "Incorrect password"
  else if status_code response =? 403 then print "No CIRCUITPY_WEB_API_PASSWORD set"
  else if status_code response =? 404 then print "Missing file"
  else print (unknown_message response).

(** [info(path)]: show info about CircuitPython devices on the local
    network *)
Definition info (path : string) : M unit :=
  response <- requests_request
    {| method := "GET"; url := cpremote_host +:+ "/cp/" +:+ path +:+ ".json";
       auth := None; headers := []; data := None; timeout := None |} ;;
  obj <- decode_json (text response) ;;
  let json_formatted_str := json_dumps 4 obj in
  print json_formatted_str.

(** The modified column of an entry whose time is [t], at the moment
    [current_time]. *)
Definition modified_column (t current_time : struct_time) : string :=
  if tm_year t =? tm_year current_time
  then strftime "%b %d %H:%M" t
  else strftime "%b %d  %Y" t.

(** The body of the loop of [ls]: one line for one entry [file]. *)
Definition ls_entry (file : pyval) : M unit :=
  is_dir <- lift (py_getitem file "directory") ;;
  let directory := if py_truthy is_dir then "/" else "" in
  current_time <- localtime_now ;;
  modified_ns <- lift (py_getitem file "modified_ns") ;;
  secs <- lift (py_truediv_int modified_ns 1000000000) ;;
  t <- localtime_of secs ;;
  let modified_time := modified_column t current_time in
  file_size <- (if String.eqb directory ""
                then lift (py_getitem file "file_size")
                else ret (PStr "")) ;;
  name <- lift (py_getitem file "name") ;;
  print (py_str file_size +:+ String tab modified_time +:+
         String tab (py_str name) +:+ directory).

(** The name of the units as the summary prints it: [None] when neither
    the environment nor the command line set it. *)
Definition units_text : string :=
  match cpremote_units with
  | Some u => u
  | None => "None"
  end.

(** The summary of [ls]: free and total space in the configured units. *)
Definition ls_summary (data : pyval) : M unit :=
  free <- lift (py_getitem data "free") ;;
  total <- lift (py_getitem data "total") ;;
  block_size <- lift (py_getitem data "block_size") ;;
  '(free, total) <-
    (if opt_str_eqb cpremote_units "b" then
       free' <- lift (py_mul free block_size) ;;
       total' <- lift (py_mul total block_size) ;;
       ret (free', total')
     else if opt_str_eqb cpremote_units "kb" then
       free_bytes <- lift (py_mul free block_size) ;;
       free' <- lift (py_truediv_int free_bytes 1024) ;;
       total_bytes <- lift (py_mul total block_size) ;;
       total' <- lift (py_truediv_int total_bytes 1024) ;;
       ret (PFloat free', PFloat total')
     else ret (free, total)) ;;
  writable <- lift (py_getitem data "writable") ;;
  print ("free: " +:+ py_str free +:+ " " +:+ units_text +:+
         ", total: " +:+ py_str total +:+ " " +:+ units_text +:+
         ", block size: " +:+ py_str block_size +:+
         ", writable: " +:+ py_str writable).

(** [directory + '/'] unless [directory] already ends with ['/'] *)
Definition with_slash (directory : string) : string :=
  if negb (endswith directory "/") then directory +:+ "/" else directory.

(** [ls(directory)]: list a directory on the remote filesystem *)
Definition ls (directory : string) : M unit :=
  let directory := with_slash directory in
  let basic := HTTPBasicAuth "" cpremote_password in
  let headers := [("Accept", "application/json")] in
  response <- requests_request
    {| method := "GET"; url := cpremote_host +:+ "/fs/" +:+ directory; auth := basic;
       headers := headers; data := None; timeout := Some 5 |} ;;
  if status_code response =? 200 then
    data <- decode_json (text response) ;;
    files <- lift (py_getitem data "files") ;;
    let directory := if String.eqb directory "" then "/" else directory in
    print ("Host " +:+ cpremote_host +:+ ", directory " +:+ directory) ;;
    print ("Size" +:+ String tab "Modified" +:+ String tab "Name") ;;
    entries <- lift (py_iter files) ;;
    for_each entries ls_entry ;;
    ls_summary data
  else if status_code response =? 401 then print "Incorrect password"
  else if status_code response =? 403 then print "No CIRCUITPY_WEB_API_PASSWORD set"
  else if status_code response =? 404 then print "Missing directory"
  else print (unknown_message response).

(** [mkdir(directory)]: make a directory on the remote filesystem *)
Definition mkdir (directory : string) : M unit :=
  let directory := with_slash directory in
  let basic := HTTPBasicAuth "" cpremote_password in
  response <- requests_request
    {| method := "PUT"; url := cpremote_host +:+ "/fs/" +:+ directory; auth := basic;
       headers := []; data := None; timeout := None |} ;;
  if status_code response =? 201 then print "Directory created"
  else if status_code response =? 204 then print "Directory or file exists"
  else if status_code response =? 401 then print "Incorrect password"
  else if status_code response =? 403 then print "No CIRCUITPY_WEB_API_PASSWORD set"
  else if status_code response =? 404 then print "Missing parent directory"
  else if status_code response =? 409
    then print "USB is active and preventing file system modification"
  else if status_code response =? 500 then print "Other, unhandled error"
  else print (unknown_message response).

(** [mv(src, dst)]: move (rename) a file or directory on the remote
    filesystem *)
Definition mv (src dst : string) : M unit :=
  let basic := HTTPBasicAuth "" cpremote_password in
  let headers := [("X-Destination", "/fs/" +:+ dst)] in
  response <- requests_request
    {| method := "MOVE"; url := cpremote_host +:+ "/fs/" +:+ src; auth := basic;
       headers := headers; data := None; timeout := None |} ;;
  if status_code response =? 201 then print "File/directory renamed"
  else if status_code response =? 401 then print "Incorrect password"
  else if status_code response =? 403 then print "No CIRCUITPY_WEB_API_PASSWORD set"
  else if status_code response =? 404
    then print "Source file/directory not found or destination path is missing"
  else if status_code response =? 409
    then print "USB is active and preventing file system modification"
  else if status_code response =? 412
    then print "Precondition Failed - The destination path is already in use"
  else print (unknown_message response).

(** [put(src, dst)]: put a file on the remote filesystem *)
Definition put (src : string) (dst : option string) : M unit :=
  let dst := match dst with None => src | Some d => d end in
  let basic := HTTPBasicAuth "" cpremote_password in
  content <- read_file src ;;
  response <- requests_request
    {| method := "PUT"; url := cpremote_host +:+ "/fs/" +:+ dst; auth := basic;
       headers := []; data := Some content; timeout := None |} ;;
  if status_code response =? 201 then print "File created and saved"
  else if status_code response =? 204 then print "File existed and overwritten"
  else if status_code response =? 401 then print "Incorrect password"
  else if status_code response =? 403 then print "No CIRCUITPY_WEB_API_PASSWORD set"
  else if status_code response =? 404 then print "Missing parent directory"
  else if status_code response =? 409
    then print "USB is active and preventing file system modification"
  else if status_code response =? 413
    then print "Expect header not sent and file is too large"
  else if status_code response =? 417
    then print "Expect header sent and file is too large"
  else if status_code response =? 500 then print "Other, unhandled error"
  else print (unknown_message response).

(** [repl()]: start Web REPL *)
Definition repl : M unit :=
  webbrowser_open (cpremote_host +:+ "/cp/serial/").

(** [rm(file)]: remove a file on the remote filesystem *)
Definition rm (file : string) : M unit :=
  let basic := HTTPBasicAuth "" cpremote_password in
  response <- requests_request
    {| method := "DELETE"; url := cpremote_host +:+ "/fs/" +:+ file; auth := basic;
       headers := []; data := None; timeout := None |} ;;
  if status_code response =? 204 then print "File existed and deleted"
  else if status_code response =? 401 then print "Incorrect password"
  else if status_code response =? 403 then print "No CIRCUITPY_WEB_API_PASSWORD set"
  else if status_code response =? 404 then print "File not found"
  else if status_code response =? 409
    then print "USB is active and preventing file system modification"
  else print (unknown_message response).

(** [rmdir(directory)]: remove the directory and all of its contents on
    the remote filesystem *)
Definition rmdir (directory : string) : M unit :=
  let directory := with_slash directory in
  let basic := HTTPBasicAuth "" cpremote_password in
  response <- requests_request
    {| method := "DELETE"; url := cpremote_host +:+ "/fs/" +:+ directory; auth := basic;
       headers := []; data := None; timeout := None |} ;;
  if status_code response =? 204 then print "Directory and its contents deleted"
  else if status_code response =? 401 then print "Incorrect password"
  else if status_code response =? 403 then print "No CIRCUITPY_WEB_API_PASSWORD set"
  else if status_code response =? 404 then print "No directory"
  else if status_code response =? 409
    then print "USB is active and preventing file system modification"
  else print (unknown_message response).

End Operations.

(** ** The entry point *)

(** The sub-command and its positional arguments, as [parser.parse_args()]
    leaves them in [args]: optional positionals are [None] when omitted,
    except the directory of [ls], which [argparse] defaults to ["/"]. *)
Inductive command :=
| Devices
| Diskinfo
| Get (src : string) (dst : option string)
| Ls (directory : string)
| Mkdir (directory : string)
| Mv (src dst : string)
| Put (src : string) (dst : option string)
| Repl
| Rm (file : string)
| Rmdir (directory : string)
| Version.

(** [args]: the global flags and the sub-command, [None] when absent. *)
Record Namespace := {
  args_host : option string;
  args_password : option string;
  args_units : option string;
  args_command : option command
}.

(** [os.getenv(name)] on the process environment, after [dotenv] has added
    the variables of the configuration file. *)
Definition getenv (environ : gmap string string) (name : string) : option string :=
  environ !! name.

(** [if not flag is None: value = flag] *)
Definition override {A} (flag value : option A) : option A :=
  match flag with
  | Some v => Some v
  | None => value
  end.

Section Main.

Variable net : Request -> net_outcome.
Variable json_loads : string -> option pyval.
Variable localtime : Z -> option struct_time.
Variable clock : nat -> Z.
Variable can_write : string -> bool.

(** What [parser.print_help()] writes. *)
Variable help_text : string.

Variable environ : gmap string string.

(** The chain of tests on [args.command] that ends [main]: each
    sub-command calls its operation, no sub-command prints the help. *)
Definition dispatch (cpremote_host cpremote_password : string)
    (cpremote_units : option string) (cmd : option command) : M unit :=
  match cmd with
  | Some Devices => info net json_loads cpremote_host "devices"
  | Some Diskinfo => info net json_loads cpremote_host "diskinfo"
  | Some (Get src dst) => get net can_write cpremote_host cpremote_password src dst
  | Some (Ls directory) =>
      ls net json_loads localtime clock cpremote_host cpremote_password
         cpremote_units directory
  | Some (Mkdir directory) => mkdir net cpremote_host cpremote_password directory
  | Some (Mv src dst) => mv net cpremote_host cpremote_password src dst
  | Some (Put src dst) => put net cpremote_host cpremote_password src dst
  | Some Repl => repl cpremote_host
  | Some (Rm file) => rm net cpremote_host cpremote_password file
  | Some (Rmdir directory) => rmdir net cpremote_host cpremote_password directory
  | Some Version => info net json_loads cpremote_host "version"
  | None => print help_text
  end.

(** [main()]: the configuration comes from the environment, the flags
    override it, and a missing host or password ends the run. *)
Definition main (args : Namespace) : M unit :=
  let cpremote_host := getenv environ "CPREMOTE_HOST" in
  let cpremote_password := getenv environ "CPREMOTE_PASSWORD" in
  let cpremote_units := getenv environ "CPREMOTE_UNITS" in
  let cpremote_host := override (args_host args) cpremote_host in
  let cpremote_password := override (args_password args) cpremote_password in
  let cpremote_units := override (args_units args) cpremote_units in
  match cpremote_host with
  | None => print "Error: CPREMOTE_HOST is not set"
  | Some host =>
      match cpremote_password with
      | None => print "Error: CPREMOTE_PASSWORD is not set"
      | Some password => dispatch host password cpremote_units (args_command args)
      end
  end.

End Main.

(** ** A JSON decoder

    An executable [json.loads] for texts whose characters stay below code
    point 256: the grammar of the [json] module with its defaults (strict
    strings, the constants [NaN], [Infinity] and [-Infinity], the last value
    of a repeated key at the key's first position).  It serves as the
    [json_loads] of the examples. *)

Definition is_ws (c : ascii) : bool :=
  Ascii.eqb c " " || Ascii.eqb c tab || Ascii.eqb c newline || Ascii.eqb c creturn.

Fixpoint skip_ws (s : string) : string :=
  match s with
  | String c s' => if is_ws c then skip_ws s' else s
  | EmptyString => s
  end.

Definition digit_of (c : ascii) : option Z :=
  let n := Z.of_nat (nat_of_ascii c) in
  if (48 <=? n) && (n <=? 57) then Some (n - 48) else None.

Definition hex_of (c : ascii) : option Z :=
  let n := Z.of_nat (nat_of_ascii c) in
  if (48 <=? n) && (n <=? 57) then Some (n - 48)
  else if (97 <=? n) && (n <=? 102) then Some (n - 87)
  else if (65 <=? n) && (n <=? 70) then Some (n - 55)
  else None.

(** The leading decimal digits of [s]: their value, their number, the rest. *)
Fixpoint take_digits (s : string) (acc : Z) (count : Z) : Z * Z * string :=
  match s with
  | String c s' =>
      match digit_of c with
      | Some d => take_digits s' (10 * acc + d) (count + 1)
      | None => (acc, count, s)
      end
  | EmptyString => (acc, count, s)
  end.

(** The character an escape [\uXXXX] denotes, when it is below 256. *)
Definition unicode_escape (a b c d : ascii) : option ascii :=
  match hex_of a, hex_of b, hex_of c, hex_of d with
  | Some 0, Some 0, Some x, Some y => Some (ascii_of_nat (Z.to_nat (16 * x + y)))
  | _, _, _, _ => None
  end.

Definition simple_escape (c : ascii) : option ascii :=
  if Ascii.eqb c dquote then Some dquote
  else if Ascii.eqb c backslash then Some backslash
  else if Ascii.eqb c "/" then Some "/"%char
  else if Ascii.eqb c "b" then Some "008"%char
  else if Ascii.eqb c "f" then Some "012"%char
  else if Ascii.eqb c "n" then Some newline
  else if Ascii.eqb c "r" then Some creturn
  else if Ascii.eqb c "t" then Some tab
  else None.

(** The characters of a string literal after its opening quote, up to the
    closing quote: the text and the rest of the input. *)
Fixpoint parse_string (s : string) : option (string * string) :=
  match s with
  | EmptyString => None
  | String c s' =>
      if Ascii.eqb c dquote then Some ("", s')
      else if Ascii.eqb c backslash then
        match s' with
        | String e s'' =>
            if Ascii.eqb e "u" then
              match s'' with
              | String h1 (String h2 (String h3 (String h4 s3))) =>
                  match unicode_escape h1 h2 h3 h4, parse_string s3 with
                  | Some x, Some (t, rest) => Some (String x t, rest)
                  | _, _ => None
                  end
              | _ => None
              end
            else
              match simple_escape e, parse_string s'' with
              | Some x, Some (t, rest) => Some (String x t, rest)
              | _, _ => None
              end
        | EmptyString => None
        end
      else if Z.of_nat (nat_of_ascii c) <? 32 then None
      else
        match parse_string s' with
        | Some (t, rest) => Some (String c t, rest)
        | None => None
        end
  end.

(** The float a decimal literal [mantissa * 10 ^ exp10] denotes. *)
Definition float_of_decimal (neg : bool) (mantissa ndigits exp10 : Z) : spec_float :=
  if mantissa =? 0 then S754_zero neg
  else if 310 <? exp10 then S754_infinity neg
  else if exp10 + ndigits <? -330 then S754_zero neg
  else
    match scale10 mantissa 1 exp10 with
    | (Zpos a, Zpos b) => float_of_ratio neg a b
    | _ => S754_nan
    end.

(** A number literal: an integer part, then optionally a fraction and an
    exponent, either of which makes the value a float. *)
Definition parse_number (s : string) : option (pyval * string) :=
  let '(neg, s1) :=
    match s with
    | String c s' => if Ascii.eqb c "-" then (true, s') else (false, s)
    | EmptyString => (false, s)
    end in
  let int_part :=
    match s1 with
    | String c s' =>
        if Ascii.eqb c "0" then Some (0, 1, s')
        else match digit_of c with
             | Some _ => Some (take_digits s1 0 0)
             | None => None
             end
    | EmptyString => None
    end in
  match int_part with
  | None => None
  | Some (i, ni, s2) =>
      let '(frac, s3) :=
        match s2 with
        | String c s' =>
            if Ascii.eqb c "." then
              let '(f, nf, rest) := take_digits s' 0 0 in
              if 0 <? nf then (Some (f, nf), rest) else (None, s2)
            else (None, s2)
        | EmptyString => (None, s2)
        end in
      let '(exp, s4) :=
        match s3 with
        | String c s' =>
            if Ascii.eqb c "e" || Ascii.eqb c "E" then
              let '(eneg, s'') :=
                match s' with
                | String sg t =>
                    if Ascii.eqb sg "-" then (true, t)
                    else if Ascii.eqb sg "+" then (false, t)
                    else (false, s')
                | EmptyString => (false, s')
                end in
              let '(x, nx, rest) := take_digits s'' 0 0 in
              if 0 <? nx then (Some (if eneg then - x else x), rest) else (None, s3)
            else (None, s3)
        | EmptyString => (None, s3)
        end in
      match frac, exp with
      | None, None => Some (PInt (if neg then - i else i), s4)
      | _, _ =>
          let '(f, nf) := match frac with Some p => p | None => (0, 0) end in
          let x := match exp with Some x => x | None => 0 end in
          Some (PFloat (float_of_decimal neg (i * 10 ^ nf + f) (ni + nf) (x - nf)), s4)
      end
  end.

(** [d[key] = v] on a dictionary in insertion order. *)
Fixpoint dict_set (key : string) (v : pyval) (items : list (string * pyval))
  : list (string * pyval) :=
  match items with
  | [] => [(key, v)]
  | (k, x) :: rest =>
      if String.eqb k key then (k, v) :: rest else (k, x) :: dict_set key v rest
  end.

Definition expect (lit : string) (v : pyval) (s : string) : option (pyval * string) :=
  if startswith s lit
  then Some (v, substring (String.length lit) (String.length s - String.length lit) s)
  else None.

(** One JSON value at the head of [s] (after white space), and the rest. *)
Fixpoint parse_value (fuel : nat) (s : string) {struct fuel} : option (pyval * string) :=
  match fuel with
  | O => None
  | S fuel' =>
      match skip_ws s with
      | EmptyString => None
      | String c s' =>
          if Ascii.eqb c dquote then
            match parse_string s' with
            | Some (t, rest) => Some (PStr t, rest)
            | None => None
            end
          else if Ascii.eqb c "[" then
            match skip_ws s' with
            | String c' s'' =>
                if Ascii.eqb c' "]" then Some (PList [], s'')
                else parse_elements fuel' s' []
            | EmptyString => None
            end
          else if Ascii.eqb c "{" then
            match skip_ws s' with
            | String c' s'' =>
                if Ascii.eqb c' "}" then Some (PDict [], s'')
                else parse_members fuel' s' []
            | EmptyString => None
            end
          else if Ascii.eqb c "t" then expect "true" (PBool true) (String c s')
          else if Ascii.eqb c "f" then expect "false" (PBool false) (String c s')
          else if Ascii.eqb c "n" then expect "null" PNone (String c s')
          else if Ascii.eqb c "N" then expect "NaN" (PFloat S754_nan) (String c s')
          else if Ascii.eqb c "I"
            then expect "Infinity" (PFloat (S754_infinity false)) (String c s')
          else if startswith (String c s') "-Infinity"
            then expect "-Infinity" (PFloat (S754_infinity true)) (String c s')
          else parse_number (String c s')
      end
  end
with parse_elements (fuel : nat) (s : string) (acc : list pyval) {struct fuel}
  : option (pyval * string) :=
  match fuel with
  | O => None
  | S fuel' =>
      match parse_value fuel' s with
      | Some (v, rest) =>
          match skip_ws rest with
          | String c rest' =>
              if Ascii.eqb c "," then parse_elements fuel' rest' (acc ++ [v])
              else if Ascii.eqb c "]" then Some (PList (acc ++ [v]), rest')
              else None
          | EmptyString => None
          end
      | None => None
      end
  end
with parse_members (fuel : nat) (s : string) (acc : list (string * pyval)) {struct fuel}
  : option (pyval * string) :=
  match fuel with
  | O => None
  | S fuel' =>
      match skip_ws s with
      | String q s' =>
          if Ascii.eqb q dquote then
            match parse_string s' with
            | Some (key, rest) =>
                match skip_ws rest with
                | String c rest' =>
                    if Ascii.eqb c ":" then
                      match parse_value fuel' rest' with
                      | Some (v, rest'') =>
                          match skip_ws rest'' with
                          | String d rest3 =>
                              if Ascii.eqb d ","
                              then parse_members fuel' rest3 (dict_set key v acc)
                              else if Ascii.eqb d "}"
                              then Some (PDict (dict_set key v acc), rest3)
                              else None
                          | EmptyString => None
                          end
                      | None => None
                      end
                    else None
                | EmptyString => None
                end
            | None => None
            end
          else None
      | EmptyString => None
      end
  end.

(** [json.loads(s)]: one value, white space around it, nothing else. *)
Definition parse_json (s : string) : option pyval :=
  match parse_value (2 * String.length s + 2) s with
  | Some (v, rest) =>
      match skip_ws rest with
      | EmptyString => Some v
      | String _ _ => None
      end
  | None => None
  end.

(** ** A time zone

    [time.localtime] of a process whose time zone is UTC: the proleptic
    Gregorian date and the time of day of a count of seconds since
    1970-01-01. *)
Definition civil_from_days (days : Z) : Z * Z * Z :=
  let z := days + 719468 in
  let era := z / 146097 in
  let doe := z - era * 146097 in
  let yoe := (doe - doe / 1460 + doe / 36524 - doe / 146096) / 365 in
  let doy := doe - (365 * yoe + yoe / 4 - yoe / 100) in
  let mp := (5 * doy + 2) / 153 in
  let d := doy - (153 * mp + 2) / 5 + 1 in
  let m := if mp <? 10 then mp + 3 else mp - 9 in
  let y := yoe + era * 400 + (if m <=? 2 then 1 else 0) in
  (y, m, d).

Definition gmtime (secs : Z) : option struct_time :=
  let days := secs / 86400 in
  let rem := secs mod 86400 in
  let '(y, m, d) := civil_from_days days in
  Some {| tm_year := y; tm_mon := m; tm_mday := d;
          tm_hour := rem / 3600; tm_min := rem mod 3600 / 60; tm_sec := rem mod 60 |}.

(** ** The messages of the status tables *)

(** Every fixed message an operation prints for a status it knows. *)
Definition documented_messages : list string :=
  [ "File exists and file returned"; "Incorrect password";
    "No CIRCUITPY_WEB_API_PASSWORD set"; "Missing file"; "Missing directory";
    "Directory created"; "Directory or file exists"; "Missing parent directory";
    "USB is active and preventing file system modification";
    "Other, unhandled error"; "File/directory renamed";
    "Source file/directory not found or destination path is missing";
    "Precondition Failed - The destination path is already in use";
    "File created and saved"; "File existed and overwritten";
    "Expect header not sent and file is too large";
    "Expect header sent and file is too large"; "File existed and deleted";
    "File not found"; "Directory and its contents deleted"; "No directory" ].

(** The sub-commands that work on the remote file system and authenticate. *)
Definition is_filesystem_command (cmd : command) : bool :=
  match cmd with
  | Get _ _ | Ls _ | Mkdir _ | Mv _ _ | Put _ _ | Rm _ | Rmdir _ => true
  | Devices | Diskinfo | Repl | Version => false
  end.

(** The sub-commands served by [info]. *)
Definition is_info_command (cmd : command) : bool :=
  match cmd with
  | Devices | Diskinfo | Version => true
  | _ => false
  end.

(** A computation that calls [requests.request] no more. *)
Definition preserves_sent {A} (c : M A) : Prop :=
  forall w, sent (snd (c w)) = sent w.

(** ** Sample environments

    Remote ends, environments and listings on which the properties below
    are evaluated. *)

(** The remote end that answers every request with status 418. *)
Definition teapot (_ : Request) : net_outcome :=
  Responded {| status_code := 418; text := "I'm a teapot" |}.

(** The remote end that answers every request with status 201. *)
Definition always_created (_ : Request) : net_outcome :=
  Responded {| status_code := 201; text := "" |}.

(** The remote end that refuses every connection. *)
Definition unreachable (_ : Request) : net_outcome := Failed ConnectionRefused.

(** The environment of a configured run. *)
Definition configured : gmap string string :=
  <["CPREMOTE_HOST" := "http://cp.local"]> (<["CPREMOTE_PASSWORD" := "secret"]> ∅).

(** The arguments of a run with a sub-command and no flag. *)
Definition no_flags (cmd : option command) : Namespace :=
  {| args_host := None; args_password := None; args_units := None; args_command := cmd |}.

(** The remote end that times out on every request. *)
Definition silent (_ : Request) : net_outcome := Failed TimedOut.

(** The remote end that answers every request with status 404 and a JSON
    error report, [{"detail": "missing"}]. *)
Definition not_found_json (_ : Request) : net_outcome :=
  Responded {| status_code := 404;
               text := "{" +:+ String dquote "detail" +:+ String dquote ": " +:+
                       String dquote "missing" +:+ String dquote "}" |}.

(** The remote end that answers every request with status 404 and an empty
    body. *)
Definition not_found_empty (_ : Request) : net_outcome :=
  Responded {| status_code := 404; text := "" |}.

(** The remote end that answers every request with status 200 and a version
    report. *)
Definition version_report (_ : Request) : net_outcome :=
  Responded {| status_code := 200;
               text := "{" +:+ String dquote "version" +:+ String dquote ": " +:+
                       String dquote "9.0.0" +:+ String dquote ", " +:+
                       String dquote "ips" +:+ String dquote ": [1, 2]}" |}.

(** The remote end that answers every request with status 401 and an empty
    JSON object. *)
Definition unauthorized (_ : Request) : net_outcome :=
  Responded {| status_code := 401; text := "{}" |}.

(** The listing a device with 100 free blocks of 200 reports. *)
Definition sample_listing : pyval :=
  PDict [("files", PList []); ("free", PInt 100); ("total", PInt 200);
         ("block_size", PInt 512); ("writable", PBool true)].

(** A file last written one nanosecond before 2024 began (UTC). *)
Definition new_year_eve_entry : pyval :=
  PDict [("name", PStr "boot.py"); ("directory", PBool false);
         ("modified_ns", PInt 1704067199999999999); ("file_size", PInt 22)].

(** The listing of a device with two entries, and the remote end that
    answers every request with status 200 and that listing as JSON text. *)
Definition two_entries : pyval :=
  PDict [("files",
          PList [PDict [("name", PStr "code.py"); ("directory", PBool false);
                        ("modified_ns", PInt 1709635445000000000);
                        ("file_size", PInt 22)];
                 PDict [("name", PStr "lib"); ("directory", PBool true);
                        ("modified_ns", PInt 946684800000000000);
                        ("file_size", PInt 0)]]);
         ("free", PInt 100); ("total", PInt 200); ("block_size", PInt 512);
         ("writable", PBool true)].

Definition listing (_ : Request) : net_outcome :=
  Responded {| status_code := 200; text := json_dumps 4 two_entries |}.

(** ** The status tables

    The fixed messages of each file-system operation, by status, in the
    order the operation tests them.  Status 200 is not in the tables of
    [get] and [ls]: on it they do not print a fixed message. *)
Definition status_table (cmd : command) : list (Z * string) :=
  match cmd with
  | Get _ _ =>
      [ (401, "Incorrect password"); (403, "No CIRCUITPY_WEB_API_PASSWORD set");
        (404, "Missing file") ]
  | Ls _ =>
      [ (401, "Incorrect password"); (403, "No CIRCUITPY_WEB_API_PASSWORD set");
        (404, "Missing directory") ]
  | Mkdir _ =>
      [ (201, "Directory created"); (204, "Directory or file exists");
        (401, "Incorrect password"); (403, "No CIRCUITPY_WEB_API_PASSWORD set");
        (404, "Missing parent directory");
        (409, "USB is active and preventing file system modification");
        (500, "Other, unhandled error") ]
  | Mv _ _ =>
      [ (201, "File/directory renamed"); (401, "Incorrect password");
        (403, "No CIRCUITPY_WEB_API_PASSWORD set");
        (404, "Source file/directory not found or destination path is missing");
        (409, "USB is active and preventing file system modification");
        (412, "Precondition Failed - The destination path is already in use") ]
  | Put _ _ =>
      [ (201, "File created and saved"); (204, "File existed and overwritten");
        (401, "Incorrect password"); (403, "No CIRCUITPY_WEB_API_PASSWORD set");
        (404, "Missing parent directory");
        (409, "USB is active and preventing file system modification");
        (413, "Expect header not sent and file is too large");
        (417, "Expect header sent and file is too large");
        (500, "Other, unhandled error") ]
  | Rm _ =>
      [ (204, "File existed and deleted"); (401, "Incorrect password");
        (403, "No CIRCUITPY_WEB_API_PASSWORD set"); (404, "File not found");
        (409, "USB is active and preventing file system modification") ]
  | Rmdir _ =>
      [ (204, "Directory and its contents deleted"); (401, "Incorrect password");
        (403, "No CIRCUITPY_WEB_API_PASSWORD set"); (404, "No directory");
        (409, "USB is active and preventing file system modification") ]
  | Devices | Diskinfo | Repl | Version => []
  end.

(** The first message a table has for a status. *)
Fixpoint table_lookup (code : Z) (table : list (Z * string)) : option string :=
  match table with
  | [] => None
  | (c, m) :: rest => if code =? c then Some m else table_lookup code rest
  end.

(** The message for a response: the table's, or the unknown-status text. *)
Definition message_for (cmd : command) (response : Response) : string :=
  match table_lookup (status_code response) (status_table cmd) with
  | Some m => m
  | None => unknown_message response
  end.

(** The operations that treat status 200 apart from their table. *)
Definition reads_body_on_200 (cmd : command) : bool :=
  match cmd with
  | Get _ _ | Ls _ => true
  | _ => false
  end.

(** A computation that leaves a component [f] of the world as it is. *)
Definition keeps {A B} (f : World -> B) (c : M A) : Prop :=
  forall w, f (snd (c w)) = f w.

(** The remote end that answers every request with status 409. *)
Definition busy (_ : Request) : net_outcome :=
  Responded {| status_code := 409; text := "" |}.


(** The HTTP method of each operation's request. *)
Definition method_of (cmd : command) : string :=
  match cmd with
  | Devices | Diskinfo | Version | Get _ _ | Ls _ => "GET"
  | Mkdir _ | Put _ _ => "PUT"
  | Mv _ _ => "MOVE"
  | Rm _ | Rmdir _ => "DELETE"
  | Repl => ""
  end.

(** ** The lines of a listing

    What the loop of [ls] reads of an entry, as functions of the entry: its
    name, whether it is a directory, the text of its size column. *)
Definition entry_name (file : pyval) : string :=
  match py_getitem file "name" with
  | Ok name => py_str name
  | Raise _ => ""
  end.

Definition entry_is_dir (file : pyval) : bool :=
  match py_getitem file "directory" with
  | Ok is_dir => py_truthy is_dir
  | Raise _ => false
  end.

Definition entry_size (file : pyval) : string :=
  if entry_is_dir file then ""
  else match py_getitem file "file_size" with
       | Ok size => py_str size
       | Raise _ => ""
       end.

(** The line of an entry whose modified column reads [column]. *)
Definition entry_line (file : pyval) (column : string) : string :=
  entry_size file +:+ String tab column +:+ String tab (entry_name file) +:+
  (if entry_is_dir file then "/" else "").

(** An entry the loop of [ls] can print: an object with a [directory]
    flag, an integer [modified_ns] whose time the platform can break down,
    a [name], and a [file_size] unless it is a directory. *)
Definition listable (localtime : Z -> option struct_time) (file : pyval) : bool :=
  match py_getitem file "directory", py_getitem file "modified_ns",
        py_getitem file "name" with
  | Ok is_dir, Ok (PInt ns), Ok _ =>
      match py_truediv_int (PInt ns) 1000000000 with
      | Ok secs =>
          match localtime (float_floor secs) with
          | Some _ =>
              py_truthy is_dir ||
              match py_getitem file "file_size" with
              | Ok _ => true
              | Raise _ => false
              end
          | None => false
          end
      | Raise _ => false
      end
  | _, _, _ => false
  end.

(** A listing whose second entry is a bare name instead of an object. *)
Definition broken_entries : pyval :=
  PDict [("files",
          PList [PDict [("name", PStr "code.py"); ("directory", PBool false);
                        ("modified_ns", PInt 1709635445000000000);
                        ("file_size", PInt 22)];
                 PStr "lib";
                 PDict [("name", PStr "boot.py"); ("directory", PBool false);
                        ("modified_ns", PInt 1709635445000000000);
                        ("file_size", PInt 3)]]);
         ("free", PInt 100); ("total", PInt 200); ("block_size", PInt 512);
         ("writable", PBool true)].

(** The remote end that answers every request with status 200 and that
    listing. *)
Definition broken_listing (_ : Request) : net_outcome :=
  Responded {| status_code := 200; text := json_dumps 4 broken_entries |}.

(** The remote end that answers every request with status 200 and a page of
    HTML. *)
Definition captive_portal (_ : Request) : net_outcome :=
  Responded {| status_code := 200; text := "<html>Sign in</html>" |}.

(** A time as [time.localtime] returns it for a year of four digits: the
    month, the day, the hour and the minute are in their calendar ranges. *)
Definition calendar_time (t : struct_time) : bool :=
  (1 <=? tm_mon t) && (tm_mon t <=? 12) &&
  (1 <=? tm_mday t) && (tm_mday t <=? 31) &&
  (0 <=? tm_hour t) && (tm_hour t <=? 23) &&
  (0 <=? tm_min t) && (tm_min t <=? 59) &&
  (1000 <=? tm_year t) && (tm_year t <=? 9999).

(** A file last written in the last second of 2023 (UTC), on the second. *)
Definition last_second_entry : pyval :=
  PDict [("name", PStr "boot.py"); ("directory", PBool false);
         ("modified_ns", PInt 1704067199000000000); ("file_size", PInt 22)].

(** * Properties *)

(** ** Text *)

Lemma startswith_app (p s : string) : startswith (p +:+ s) p = true.
Proof.
  induction p as [| a p IH]; simpl.
  - reflexivity.
  - rewrite Ascii.eqb_refl. exact IH.
Qed.

Lemma contains_here (s sub : string) : startswith s sub = true -> contains s sub = true.
Proof.
  intros H. destruct s; simpl; rewrite H; reflexivity.
Qed.

Lemma contains_app_r (x s sub : string) :
  contains s sub = true -> contains (x +:+ s) sub = true.
Proof.
  intros H. induction x as [| a x IH]; simpl.
  - exact H.
  - rewrite IH. apply orb_true_r.
Qed.

Lemma contains_middle (x y z : string) : contains (x +:+ y +:+ z) y = true.
Proof.
  apply contains_app_r, contains_here, startswith_app.
Qed.

Lemma append_empty_r (y : string) : y +:+ "" = y.
Proof.
  induction y as [| a y IH]; simpl; [reflexivity | f_equal; exact IH].
Qed.

Lemma contains_end (x y : string) : contains (x +:+ y) y = true.
Proof.
  apply contains_app_r, contains_here.
  rewrite <- (append_empty_r y) at 1. apply startswith_app.
Qed.

Lemma endswith_app_slash (p : string) : endswith (p +:+ "/") "/" = true.
Proof.
  induction p as [| a p IH]; simpl.
  - reflexivity.
  - rewrite IH. apply orb_true_r.
Qed.

Lemma with_slash_missing (p : string) :
  endswith p "/" = false -> with_slash p = p +:+ "/".
Proof. intros H. unfold with_slash. rewrite H. reflexivity. Qed.

Lemma with_slash_present (p : string) :
  endswith p "/" = true -> with_slash p = p.
Proof. intros H. unfold with_slash. rewrite H. reflexivity. Qed.

Lemma with_slash_ends (p : string) : endswith (with_slash p) "/" = true.
Proof.
  unfold with_slash. destruct (endswith p "/") eqn:E; simpl.
  - exact E.
  - apply endswith_app_slash.
Qed.

Lemma with_slash_idempotent (p : string) : with_slash (with_slash p) = with_slash p.
Proof. apply with_slash_present, with_slash_ends. Qed.

(** ** Floats *)

(** [repr] on a few floats whose text in Python is well known: 0.1, 1/3,
    100.0, 1e16, 1e-05, -2.5, and the quotients of the summary. *)
Example float_repr_samples :
  List.map float_repr
    [ float_of_ratio false 1 10; float_of_ratio false 1 3; float_of_int 100;
      float_of_int (10 ^ 16); float_of_ratio false 1 100000; float_of_ratio true 5 2;
      float_of_ratio false 51200 1024; float_of_ratio false 102400 1024 ] =
    [ "0.1"; "0.3333333333333333"; "100.0"; "1e+16"; "1e-05"; "-2.5"; "50.0"; "100.0" ].
Proof. vm_compute. reflexivity. Qed.

(** A timestamp of whole seconds divides exactly; one that is a nanosecond
    short of a second divides to the float of that second. *)
Example timestamp_division :
  option_map float_floor
    (match py_truediv_int (PInt 1709635445000000000) 1000000000 with
     | Ok f => Some f
     | Raise _ => None
     end) = Some 1709635445 /\
  option_map float_floor
    (match py_truediv_int (PInt 1709635445999999999) 1000000000 with
     | Ok f => Some f
     | Raise _ => None
     end) = Some 1709635446.
Proof. split; vm_compute; reflexivity. Qed.

(** ** Calls of [requests.request] *)

Lemma preserves_ret {A} (a : A) : preserves_sent (ret a).
Proof. intros w. reflexivity. Qed.

Lemma preserves_raise {A} (e : exn) : preserves_sent (@raise A e).
Proof. intros w. reflexivity. Qed.

Lemma preserves_lift {A} (r : result A) : preserves_sent (lift r).
Proof. intros w. reflexivity. Qed.

Lemma preserves_print (s : string) : preserves_sent (print s).
Proof. intros w. reflexivity. Qed.

Lemma preserves_bind {A B} (c : M A) (k : A -> M B) :
  preserves_sent c -> (forall a, preserves_sent (k a)) -> preserves_sent (bind c k).
Proof.
  intros Hc Hk w. unfold bind. specialize (Hc w).
  destruct (c w) as [[a | e] w']; simpl in *.
  - rewrite Hk. exact Hc.
  - exact Hc.
Qed.

Lemma preserves_read_file (path : string) : preserves_sent (read_file path).
Proof. intros w. unfold read_file. destruct (local_files w !! path); reflexivity. Qed.

Lemma preserves_write_file can_write (path content : string) :
  preserves_sent (write_file can_write path content).
Proof. intros w. unfold write_file. destruct (can_write path); reflexivity. Qed.

Lemma preserves_webbrowser_open (u : string) : preserves_sent (webbrowser_open u).
Proof. intros w. reflexivity. Qed.

Lemma preserves_decode_json json_loads (body : string) :
  preserves_sent (decode_json json_loads body).
Proof.
  unfold decode_json. destruct (json_loads body); [apply preserves_ret | apply preserves_raise].
Qed.

Lemma preserves_localtime_now localtime clock :
  preserves_sent (localtime_now localtime clock).
Proof.
  intros w. unfold localtime_now. destruct (localtime (clock (clock_reads w))); reflexivity.
Qed.

Lemma preserves_localtime_of localtime (secs : spec_float) :
  preserves_sent (localtime_of localtime secs).
Proof.
  unfold localtime_of.
  destruct secs; try apply preserves_raise;
    match goal with |- context [localtime ?x] => destruct (localtime x) end;
    first [apply preserves_ret | apply preserves_raise].
Qed.

Lemma preserves_for_each {A} (l : list A) (body : A -> M unit) :
  (forall x, preserves_sent (body x)) -> preserves_sent (for_each l body).
Proof.
  intros Hb. induction l as [| x l IH]; simpl.
  - apply preserves_ret.
  - apply preserves_bind; [apply Hb | intros _; exact IH].
Qed.

Create HintDb frame.
#[local] Hint Resolve preserves_ret preserves_raise preserves_lift preserves_print
  preserves_read_file preserves_write_file preserves_webbrowser_open
  preserves_decode_json preserves_localtime_now preserves_localtime_of : frame.

(** Splits a computation at its binds and tests until every piece is one of
    the primitives above. *)
Ltac frame :=
  repeat first
    [ progress intros
    | solve [auto with frame]
    | apply preserves_bind
    | apply preserves_for_each
    | match goal with
      | |- preserves_sent (if ?b then _ else _) => destruct b
      | |- preserves_sent (match ?x with _ => _ end) => destruct x
      end ].

Lemma preserves_ls_entry localtime clock (file : pyval) :
  preserves_sent (ls_entry localtime clock file).
Proof. unfold ls_entry. frame. Qed.

Lemma preserves_ls_summary units (data : pyval) :
  preserves_sent (ls_summary units data).
Proof. unfold ls_summary. frame. Qed.

#[local] Hint Resolve preserves_ls_entry preserves_ls_summary : frame.

(** A request followed by code that sends nothing sends exactly that
    request, whether it is answered or fails. *)
Lemma sent_after_request {A} net (r : Request) (k : Response -> M A) (w : World) :
  (forall resp, preserves_sent (k resp)) ->
  sent (snd (bind (requests_request net r) k w)) = sent w ++ [r].
Proof.
  intros Hk. unfold bind, requests_request.
  destruct (net r) as [resp | e]; simpl.
  - rewrite Hk. reflexivity.
  - reflexivity.
Qed.

Section Sent.

Variable net : Request -> net_outcome.
Variable json_loads : string -> option pyval.
Variable localtime : Z -> option struct_time.
Variable clock : nat -> Z.
Variable can_write : string -> bool.
Variables host password : string.
Variable units : option string.

Lemma get_sent src dst w :
  sent (snd (get net can_write host password src dst w)) =
  sent w ++ [ {| method := "GET"; url := host +:+ "/fs/" +:+ src;
                 auth := Some ("", password); headers := []; data := None;
                 timeout := None |} ].
Proof. unfold get. apply sent_after_request. frame. Qed.

Lemma info_sent path w :
  sent (snd (info net json_loads host path w)) =
  sent w ++ [ {| method := "GET"; url := host +:+ "/cp/" +:+ path +:+ ".json";
                 auth := None; headers := []; data := None; timeout := None |} ].
Proof. unfold info. apply sent_after_request. frame. Qed.

Lemma ls_sent directory w :
  sent (snd (ls net json_loads localtime clock host password units directory w)) =
  sent w ++ [ {| method := "GET"; url := host +:+ "/fs/" +:+ with_slash directory;
                 auth := Some ("", password);
                 headers := [("Accept", "application/json")]; data := None;
                 timeout := Some 5 |} ].
Proof. unfold ls. apply sent_after_request. frame. Qed.

Lemma mkdir_sent directory w :
  sent (snd (mkdir net host password directory w)) =
  sent w ++ [ {| method := "PUT"; url := host +:+ "/fs/" +:+ with_slash directory;
                 auth := Some ("", password); headers := []; data := None;
                 timeout := None |} ].
Proof. unfold mkdir. apply sent_after_request. frame. Qed.

Lemma mv_sent src dst w :
  sent (snd (mv net host password src dst w)) =
  sent w ++ [ {| method := "MOVE"; url := host +:+ "/fs/" +:+ src;
                 auth := Some ("", password);
                 headers := [("X-Destination", "/fs/" +:+ dst)]; data := None;
                 timeout := None |} ].
Proof. unfold mv. apply sent_after_request. frame. Qed.

Lemma rm_sent file w :
  sent (snd (rm net host password file w)) =
  sent w ++ [ {| method := "DELETE"; url := host +:+ "/fs/" +:+ file;
                 auth := Some ("", password); headers := []; data := None;
                 timeout := None |} ].
Proof. unfold rm. apply sent_after_request. frame. Qed.

Lemma rmdir_sent directory w :
  sent (snd (rmdir net host password directory w)) =
  sent w ++ [ {| method := "DELETE"; url := host +:+ "/fs/" +:+ with_slash directory;
                 auth := Some ("", password); headers := []; data := None;
                 timeout := None |} ].
Proof. unfold rmdir. apply sent_after_request. frame. Qed.

Lemma put_sent src dst w :
  sent (snd (put net host password src dst w)) =
  match local_files w !! src with
  | Some content =>
      sent w ++ [ {| method := "PUT";
                     url := host +:+ "/fs/" +:+ match dst with None => src | Some d => d end;
                     auth := Some ("", password); headers := [];
                     data := Some content; timeout := None |} ]
  | None => sent w
  end.
Proof.
  unfold put, bind at 1, read_file.
  destruct (local_files w !! src) as [content |]; [| reflexivity].
  apply sent_after_request. frame.
Qed.

Lemma repl_sent w : sent (snd (repl host w)) = sent w.
Proof. reflexivity. Qed.

End Sent.

(** ** The status table of [get] *)

Lemma unknown_not_documented (m : string) :
  startswith m "Unknown " = true -> ~ In m documented_messages.
Proof.
  intros Hm Hin.
  assert (Hall : forallb (fun d => negb (startswith d "Unknown ")) documented_messages = true)
    by reflexivity.
  rewrite forallb_forall in Hall. specialize (Hall m Hin).
  rewrite Hm in Hall. discriminate.
Qed.

(** C7. For [get], a response whose status is none of 200, 401, 403 and 404
    (418, say) makes the client print one message, ["Unknown <code>: <body>"]:
    it contains the decimal status code and the raw response body, and it is
    none of the messages of the status tables. *)
Theorem get_unknown_status net can_write host password src dst w resp :
  let request := {| method := "GET"; url := host +:+ "/fs/" +:+ src;
                    auth := Some ("", password); headers := []; data := None;
                    timeout := None |} in
  net request = Responded resp ->
  ~ In (status_code resp) [200; 401; 403; 404] ->
  exists msg,
    msg = "Unknown " +:+ str_int (status_code resp) +:+ ": " +:+ text resp /\
    get net can_write host password src dst w = (Ok tt, printed msg (requested request w)) /\
    contains msg (str_int (status_code resp)) = true /\
    contains msg (text resp) = true /\
    ~ In msg documented_messages.
Proof.
  intros request Hnet Hcode.
  assert (E : forall c, In c [200; 401; 403; 404] -> (status_code resp =? c) = false).
  { intros c Hc. apply Z.eqb_neq. intros Heq. apply Hcode. rewrite Heq. exact Hc. }
  eexists. split; [reflexivity |].
  unfold get, bind, requests_request, HTTPBasicAuth. fold request. rewrite Hnet.
  rewrite !E by (simpl; auto).
  repeat split.
  - exact (contains_middle "Unknown " _ _).
  - exact (contains_app_r "Unknown " _ _
             (contains_app_r (str_int (status_code resp)) _ _
                (contains_end ": " (text resp)))).
  - apply unknown_not_documented. reflexivity.
Qed.

Lemma get_unknown_status_witness :
  exists msg,
    msg = "Unknown " +:+ str_int 418 +:+ ": " +:+ "I'm a teapot" /\
    get teapot (fun _ => true) "http://cp.local" "secret" "code.py" None (initial_world ∅) =
      (Ok tt,
       printed msg
         (requested {| method := "GET"; url := "http://cp.local/fs/code.py";
                       auth := Some ("", "secret"); headers := []; data := None;
                       timeout := None |} (initial_world ∅))) /\
    contains msg (str_int 418) = true /\
    contains msg "I'm a teapot" = true /\
    ~ In msg documented_messages.
Proof.
  apply (get_unknown_status teapot (fun _ => true) "http://cp.local" "secret" "code.py"
           None (initial_world ∅) {| status_code := 418; text := "I'm a teapot" |}).
  - reflexivity.
  - simpl. lia.
Defined.

(** ** Requests answered and requests failed *)

Lemma request_answered {A} net (r : Request) (k : Response -> M A) w resp :
  net r = Responded resp ->
  bind (requests_request net r) k w = k resp (requested r w).
Proof. intros H. unfold bind, requests_request. rewrite H. reflexivity. Qed.

Lemma request_failed {A} net (r : Request) (k : Response -> M A) w e :
  net r = Failed e ->
  bind (requests_request net r) k w = (Raise (RequestException e), requested r w).
Proof. intros H. unfold bind, requests_request. rewrite H. reflexivity. Qed.

Lemma sent_not_extended (l : list Request) (r : Request) : l = l ++ [r] -> False.
Proof.
  intros H. apply (f_equal (@List.length _)) in H.
  rewrite List.length_app in H. simpl in H. lia.
Qed.

Lemma sent_last (l : list Request) (r r' : Request) : l ++ [r'] = l ++ [r] -> r' = r.
Proof. intros H. apply app_inj_tail in H. apply H. Qed.

(** ** Directory paths *)

(** C2, as stated, fails for [mv]: the destination [backup] has no trailing
    slash, and none is appended; the one request of [mv a.txt backup] names
    [/fs/a.txt] and carries [X-Destination: /fs/backup]. *)
Lemma mv_destination_sent_verbatim :
  mv always_created "http://cp.local" "secret" "a.txt" "backup" (initial_world ∅) =
    (Ok tt,
     printed "File/directory renamed"
       (requested {| method := "MOVE"; url := "http://cp.local/fs/a.txt";
                     auth := Some ("", "secret");
                     headers := [("X-Destination", "/fs/backup")];
                     data := None; timeout := None |} (initial_world ∅))) /\
  endswith "/fs/backup" "/" = false /\
  endswith "http://cp.local/fs/a.txt" "/" = false.
Proof. split; [reflexivity | split; reflexivity]. Qed.

(** C2, amended. [ls], [mkdir] and [rmdir] append ['/'] to a path that does
    not end with one before they build the URL: for such a path [p] the one
    request goes to [host + '/fs/' + p + '/'], and the run is the run on
    [p + '/'] ([ls foo] is [ls foo/]).  [mv] appends nothing: its request
    goes to [host + '/fs/' + src] and its [X-Destination] header is
    ['/fs/' + dst], both paths as given. *)
Theorem directory_operations_append_slash
    net json_loads localtime clock host password units (p : string) (w : World) :
  endswith p "/" = false ->
  (exists r, sent (snd (ls net json_loads localtime clock host password units p w))
             = sent w ++ [r] /\ url r = host +:+ "/fs/" +:+ p +:+ "/") /\
  (exists r, sent (snd (mkdir net host password p w)) = sent w ++ [r] /\
             url r = host +:+ "/fs/" +:+ p +:+ "/") /\
  (exists r, sent (snd (rmdir net host password p w)) = sent w ++ [r] /\
             url r = host +:+ "/fs/" +:+ p +:+ "/") /\
  ls net json_loads localtime clock host password units p w =
    ls net json_loads localtime clock host password units (p +:+ "/") w /\
  mkdir net host password p w = mkdir net host password (p +:+ "/") w /\
  rmdir net host password p w = rmdir net host password (p +:+ "/") w /\
  (forall src dst,
     exists r, sent (snd (mv net host password src dst w)) = sent w ++ [r] /\
               url r = host +:+ "/fs/" +:+ src /\
               headers r = [("X-Destination", "/fs/" +:+ dst)]).
Proof.
  intros Hp.
  assert (E1 : with_slash p = p +:+ "/") by (apply with_slash_missing, Hp).
  assert (E2 : with_slash (p +:+ "/") = p +:+ "/")
    by (apply with_slash_present, endswith_app_slash).
  repeat split.
  - eexists. split; [apply ls_sent |]. simpl. rewrite E1. reflexivity.
  - eexists. split; [apply mkdir_sent |]. simpl. rewrite E1. reflexivity.
  - eexists. split; [apply rmdir_sent |]. simpl. rewrite E1. reflexivity.
  - unfold ls. rewrite E1, E2. reflexivity.
  - unfold mkdir. rewrite E1, E2. reflexivity.
  - unfold rmdir. rewrite E1, E2. reflexivity.
  - intros src dst. eexists. split; [apply mv_sent |]. split; reflexivity.
Qed.

Lemma directory_operations_append_slash_witness :
  (exists r, sent (snd (ls always_created parse_json gmtime (fun _ => 0) "http://cp.local"
                           "secret" None "foo" (initial_world ∅)))
             = [] ++ [r] /\ url r = "http://cp.local" +:+ "/fs/" +:+ "foo" +:+ "/") /\
  (exists r, sent (snd (mkdir always_created "http://cp.local" "secret" "foo"
                              (initial_world ∅))) = [] ++ [r] /\
             url r = "http://cp.local" +:+ "/fs/" +:+ "foo" +:+ "/") /\
  (exists r, sent (snd (rmdir always_created "http://cp.local" "secret" "foo"
                              (initial_world ∅))) = [] ++ [r] /\
             url r = "http://cp.local" +:+ "/fs/" +:+ "foo" +:+ "/") /\
  ls always_created parse_json gmtime (fun _ => 0) "http://cp.local" "secret" None "foo"
     (initial_world ∅) =
    ls always_created parse_json gmtime (fun _ => 0) "http://cp.local" "secret" None
       ("foo" +:+ "/") (initial_world ∅) /\
  mkdir always_created "http://cp.local" "secret" "foo" (initial_world ∅) =
    mkdir always_created "http://cp.local" "secret" ("foo" +:+ "/") (initial_world ∅) /\
  rmdir always_created "http://cp.local" "secret" "foo" (initial_world ∅) =
    rmdir always_created "http://cp.local" "secret" ("foo" +:+ "/") (initial_world ∅) /\
  (forall src dst,
     exists r, sent (snd (mv always_created "http://cp.local" "secret" src dst
                             (initial_world ∅))) = [] ++ [r] /\
               url r = "http://cp.local" +:+ "/fs/" +:+ src /\
               headers r = [("X-Destination", "/fs/" +:+ dst)]).
Proof.
  apply (directory_operations_append_slash always_created parse_json gmtime (fun _ => 0)
           "http://cp.local" "secret" None "foo" (initial_world ∅)).
  reflexivity.
Defined.

(** ** The destination of [put] *)

(** C10. [put] with the destination omitted runs as [put] with the
    destination given equal to the source; when the local file can be read
    its one request is a [PUT] to [host + '/fs/' + src] carrying the file,
    and when it cannot, the run ends before any request, with or without
    the destination. *)
Theorem put_default_destination net host password (src : string) (w : World) :
  put net host password src None w = put net host password src (Some src) w /\
  sent (snd (put net host password src None w)) =
    match local_files w !! src with
    | Some content =>
        sent w ++ [ {| method := "PUT"; url := host +:+ "/fs/" +:+ src;
                       auth := Some ("", password); headers := [];
                       data := Some content; timeout := None |} ]
    | None => sent w
    end.
Proof.
  split.
  - reflexivity.
  - rewrite put_sent. destruct (local_files w !! src); reflexivity.
Qed.

(** ** One request per operation *)

(** C8, as stated, fails for [put]: when the local source file cannot be
    opened, [open] raises before [requests.request] is called, and the
    invocation issues no request at all. *)
Lemma put_missing_file_sends_nothing :
  put always_created "http://cp.local" "secret" "missing.py" None (initial_world ∅) =
    (Raise (OSError "missing.py"), initial_world ∅) /\
  sent (snd (put always_created "http://cp.local" "secret" "missing.py" None
                 (initial_world ∅))) = [].
Proof. split; reflexivity. Qed.

(** C8, amended. An invocation of [get], [ls], [mkdir], [mv], [rm], [rmdir]
    or an info operation issues exactly one request; [put] issues exactly
    one when its local source file can be read and none when it cannot;
    [repl] issues none.  The request of [ls] has a timeout of 5 seconds,
    every other request has no timeout. *)
Theorem one_request_per_operation
    net json_loads localtime clock can_write help_text host password units
    (cmd : command) (w : World) :
  let w' := snd (dispatch net json_loads localtime clock can_write help_text
                          host password units (Some cmd) w) in
  match cmd with
  | Ls _ => exists r, sent w' = sent w ++ [r] /\ timeout r = Some 5
  | Put src _ =>
      match local_files w !! src with
      | Some _ => exists r, sent w' = sent w ++ [r] /\ timeout r = None
      | None => sent w' = sent w
      end
  | Repl => sent w' = sent w
  | _ => exists r, sent w' = sent w ++ [r] /\ timeout r = None
  end.
Proof.
  destruct cmd; simpl.
  - eexists. split; [apply info_sent | reflexivity].
  - eexists. split; [apply info_sent | reflexivity].
  - eexists. split; [apply get_sent | reflexivity].
  - eexists. split; [apply ls_sent | reflexivity].
  - eexists. split; [apply mkdir_sent | reflexivity].
  - eexists. split; [apply mv_sent | reflexivity].
  - rewrite put_sent. destruct (local_files w !! src).
    + eexists. split; reflexivity.
    + reflexivity.
  - reflexivity.
  - eexists. split; [apply rm_sent | reflexivity].
  - eexists. split; [apply rmdir_sent | reflexivity].
  - eexists. split; [apply info_sent | reflexivity].
Qed.

(** ** Transport failures *)

(** C4, as stated, fails: with the device unreachable, [cpremote get code.py]
    prints nothing, and the run ends with the exception of
    [requests.request], which neither [get] nor [main] catches. *)
Lemma connection_refused_is_not_printed :
  main unreachable parse_json gmtime (fun _ => 0) (fun _ => true) "usage" configured
       (no_flags (Some (Get "code.py" None))) (initial_world ∅) =
    (Raise (RequestException ConnectionRefused),
     requested {| method := "GET"; url := "http://cp.local/fs/code.py";
                  auth := Some ("", "secret"); headers := []; data := None;
                  timeout := None |} (initial_world ∅)) /\
  stdout (snd (main unreachable parse_json gmtime (fun _ => 0) (fun _ => true) "usage"
                    configured (no_flags (Some (Get "code.py" None)))
                    (initial_world ∅))) = [].
Proof. split; reflexivity. Qed.

(** Runs one operation on the request it sent and that failed. *)
Ltac refused sent_lemma op Hnet :=
  let H := fresh "H" in
  rewrite sent_lemma; intros H; apply sent_last in H; subst;
  unfold op; apply request_failed, Hnet.

(** C4, amended. When [requests.request] fails without a response
    (connection refused, timeout, name resolution), the failure is raised as
    an exception that nothing handles: whatever the sub-command, a run of
    [main] that issued the request [r], to which the remote end did not
    answer, ends with that exception, having printed nothing. *)
Theorem transport_failure_propagates
    net json_loads localtime clock can_write help_text environ
    (args : Namespace) (w : World) (r : Request) (e : request_error) :
  sent (snd (main net json_loads localtime clock can_write help_text environ args w))
    = sent w ++ [r] ->
  net r = Failed e ->
  main net json_loads localtime clock can_write help_text environ args w =
    (Raise (RequestException e), requested r w) /\
  stdout (snd (main net json_loads localtime clock can_write help_text environ args w))
    = stdout w.
Proof.
  intros Hsent Hnet.
  cut (main net json_loads localtime clock can_write help_text environ args w =
       (Raise (RequestException e), requested r w)).
  { intros ->. split; reflexivity. }
  revert Hsent. unfold main.
  destruct (override (args_host args) (getenv environ "CPREMOTE_HOST")) as [host |];
    [| intros H; destruct (sent_not_extended _ _ H)].
  destruct (override (args_password args) (getenv environ "CPREMOTE_PASSWORD"))
    as [password |]; [| intros H; destruct (sent_not_extended _ _ H)].
  destruct (args_command args) as [cmd |];
    [| intros H; destruct (sent_not_extended _ _ H)].
  destruct cmd; simpl.
  - refused info_sent info Hnet.
  - refused info_sent info Hnet.
  - refused get_sent get Hnet.
  - refused ls_sent ls Hnet.
  - refused mkdir_sent mkdir Hnet.
  - refused mv_sent mv Hnet.
  - rewrite put_sent. unfold put, bind at 1, read_file.
    destruct (local_files w !! src) as [content |];
      [| intros H; destruct (sent_not_extended _ _ H)].
    intros H. apply sent_last in H. subst r. apply request_failed, Hnet.
  - intros H. destruct (sent_not_extended _ _ H).
  - refused rm_sent rm Hnet.
  - refused rmdir_sent rmdir Hnet.
  - refused info_sent info Hnet.
Qed.

Lemma transport_failure_propagates_witness :
  main silent parse_json gmtime (fun _ => 0) (fun _ => true) "usage" configured
       (no_flags (Some (Ls "/"))) (initial_world ∅) =
    (Raise (RequestException TimedOut),
     requested {| method := "GET"; url := "http://cp.local/fs//";
                  auth := Some ("", "secret");
                  headers := [("Accept", "application/json")]; data := None;
                  timeout := Some 5 |} (initial_world ∅)) /\
  stdout (snd (main silent parse_json gmtime (fun _ => 0) (fun _ => true) "usage"
                    configured (no_flags (Some (Ls "/"))) (initial_world ∅)))
    = stdout (initial_world ∅).
Proof.
  apply (transport_failure_propagates silent parse_json gmtime (fun _ => 0)
           (fun _ => true) "usage" configured (no_flags (Some (Ls "/")))
           (initial_world ∅)).
  - reflexivity.
  - reflexivity.
Defined.

(** ** The info operations *)

(** What [info] does with an answered request: the status is not read; the
    body is decoded and printed again, or the decoder raises. *)
Lemma info_answered net json_loads host path w resp :
  let request := {| method := "GET"; url := host +:+ "/cp/" +:+ path +:+ ".json";
                    auth := None; headers := []; data := None; timeout := None |} in
  net request = Responded resp ->
  info net json_loads host path w =
    match json_loads (text resp) with
    | Some obj => (Ok tt, printed (json_dumps 4 obj) (requested request w))
    | None => (Raise JSONDecodeError, requested request w)
    end.
Proof.
  intros request Hnet. unfold info. fold request.
  rewrite (request_answered _ _ _ _ _ Hnet).
  unfold bind, decode_json. destruct (json_loads (text resp)); reflexivity.
Qed.

(** C3, as stated, fails in its second half: on a 404 response [info] does
    parse the body.  A JSON body is printed re-serialized, as for a 200, and
    the text printed does not mention the status; a body that is not JSON
    makes the decoder raise, and nothing is printed. *)
Lemma info_reads_body_of_any_status :
  info not_found_json parse_json "http://cp.local" "version" (initial_world ∅) =
    (Ok tt,
     printed ("{" +:+ String newline
              ("    " +:+ String dquote "detail" +:+ String dquote ": " +:+
               String dquote "missing" +:+ String dquote "" +:+ String newline "}"))
       (requested {| method := "GET"; url := "http://cp.local/cp/version.json";
                     auth := None; headers := []; data := None; timeout := None |}
                  (initial_world ∅))) /\
  forallb (fun line => negb (contains line (str_int 404)))
    (stdout (snd (info not_found_json parse_json "http://cp.local" "version"
                       (initial_world ∅)))) = true /\
  info not_found_empty parse_json "http://cp.local" "version" (initial_world ∅) =
    (Raise JSONDecodeError,
     requested {| method := "GET"; url := "http://cp.local/cp/version.json";
                  auth := None; headers := []; data := None; timeout := None |}
               (initial_world ∅)) /\
  stdout (snd (info not_found_empty parse_json "http://cp.local" "version"
                    (initial_world ∅))) = [].
Proof. repeat split; vm_compute; reflexivity. Qed.

(** C3, amended. For the info operations (devices, diskinfo, version), when
    the response status is 200, and equally for any other status, the client
    decodes the response body as JSON and prints it re-serialized with
    4-space indentation; a body that is not JSON raises the decoder's
    exception and nothing is printed.  The status is neither tested nor
    echoed.  Here [r] is the request the run issued and [resp] the answer
    to it. *)
Theorem info_reserializes_body
    net json_loads localtime clock can_write help_text host password units
    (cmd : command) (w : World) (r : Request) (resp : Response) :
  is_info_command cmd = true ->
  sent (snd (dispatch net json_loads localtime clock can_write help_text
                      host password units (Some cmd) w)) = sent w ++ [r] ->
  net r = Responded resp ->
  dispatch net json_loads localtime clock can_write help_text host password units
           (Some cmd) w =
    match json_loads (text resp) with
    | Some obj => (Ok tt, printed (json_dumps 4 obj) (requested r w))
    | None => (Raise JSONDecodeError, requested r w)
    end.
Proof.
  intros Hcmd Hsent Hnet.
  destruct cmd; try discriminate Hcmd; simpl in *;
    rewrite info_sent in Hsent; apply sent_last in Hsent; subst r;
    apply info_answered, Hnet.
Qed.

Lemma info_reserializes_body_witness :
  dispatch version_report parse_json gmtime (fun _ => 0) (fun _ => true) "usage"
           "http://cp.local" "secret" None (Some Version) (initial_world ∅) =
    (Ok tt,
     printed
       (json_dumps 4 (PDict [("version", PStr "9.0.0"); ("ips", PList [PInt 1; PInt 2])]))
       (requested {| method := "GET"; url := "http://cp.local/cp/version.json";
                     auth := None; headers := []; data := None; timeout := None |}
                  (initial_world ∅))).
Proof.
  apply (info_reserializes_body version_report parse_json gmtime (fun _ => 0)
           (fun _ => true) "usage" "http://cp.local" "secret" None Version
           (initial_world ∅) _ _ eq_refl eq_refl eq_refl).
Defined.

(** The text [json.dumps(..., indent=4)] gives for that report: one item per
    line, four spaces per level of nesting. *)
Example version_report_printed :
  json_dumps 4 (PDict [("version", PStr "9.0.0"); ("ips", PList [PInt 1; PInt 2])]) =
  "{" +:+ String newline
  ("    " +:+ String dquote "version" +:+ String dquote ": " +:+
              String dquote "9.0.0" +:+ String dquote "," +:+ String newline
  ("    " +:+ String dquote "ips" +:+ String dquote ": [" +:+ String newline
  ("        1," +:+ String newline
  ("        2" +:+ String newline
  ("    ]" +:+ String newline "}"))))).
Proof. vm_compute. reflexivity. Qed.

(** ** Authentication failures *)

(** C1, as stated, fails for the info operations: on a 401 response
    [info] prints the body it decoded, not ["Incorrect password"]. *)
Lemma info_unauthorized_prints_body :
  info unauthorized parse_json "http://cp.local" "diskinfo" (initial_world ∅) =
    (Ok tt,
     printed "{}"
       (requested {| method := "GET"; url := "http://cp.local/cp/diskinfo.json";
                     auth := None; headers := []; data := None; timeout := None |}
                  (initial_world ∅))) /\
  stdout (snd (info unauthorized parse_json "http://cp.local" "diskinfo"
                    (initial_world ∅))) = ["{}"] /\
  String.eqb "{}" "Incorrect password" = false.
Proof. split; [vm_compute; reflexivity | split; reflexivity]. Qed.

(** Runs one operation on the request it sent and the answer it got. *)
Ltac answered sent_lemma op Hsent Hnet :=
  rewrite sent_lemma in Hsent; apply sent_last in Hsent; subst;
  unfold op; rewrite (request_answered _ _ _ _ _ Hnet); cbv beta zeta.

(** C1, amended. For every file-system operation ([get], [ls], [mkdir],
    [mv], [put], [rm], [rmdir]), a response of status 401 makes the client
    print exactly ["Incorrect password"], and one of status 403 exactly
    ["No CIRCUITPY_WEB_API_PASSWORD set"].  The info operations (devices,
    diskinfo, version) send no credentials and do not read the status: they
    print the decoded body, whatever the status.  Here [r] is the request
    the run issued and [resp] the answer to it. *)
Theorem auth_failure_messages
    net json_loads localtime clock can_write help_text host password units
    (cmd : command) (w : World) (r : Request) (resp : Response) :
  sent (snd (dispatch net json_loads localtime clock can_write help_text
                      host password units (Some cmd) w)) = sent w ++ [r] ->
  net r = Responded resp ->
  (is_filesystem_command cmd = true ->
   (status_code resp = 401 ->
    dispatch net json_loads localtime clock can_write help_text host password units
             (Some cmd) w = (Ok tt, printed "Incorrect password" (requested r w))) /\
   (status_code resp = 403 ->
    dispatch net json_loads localtime clock can_write help_text host password units
             (Some cmd) w =
      (Ok tt, printed "No CIRCUITPY_WEB_API_PASSWORD set" (requested r w)))) /\
  (is_info_command cmd = true ->
   auth r = None /\
   dispatch net json_loads localtime clock can_write help_text host password units
            (Some cmd) w =
     match json_loads (text resp) with
     | Some obj => (Ok tt, printed (json_dumps 4 obj) (requested r w))
     | None => (Raise JSONDecodeError, requested r w)
     end).
Proof.
  intros Hsent Hnet. split.
  - intros Hcmd.
    destruct cmd; try discriminate Hcmd; simpl in *.
    + answered get_sent get Hsent Hnet. split; intros ->; reflexivity.
    + answered ls_sent ls Hsent Hnet. split; intros ->; reflexivity.
    + answered mkdir_sent mkdir Hsent Hnet. split; intros ->; reflexivity.
    + answered mv_sent mv Hsent Hnet. split; intros ->; reflexivity.
    + rewrite put_sent in Hsent.
      destruct (local_files w !! src) as [content |] eqn:Hfile;
        [| destruct (sent_not_extended _ _ Hsent)].
      apply sent_last in Hsent. subst r.
      unfold put, bind, read_file, requests_request, HTTPBasicAuth.
      rewrite Hfile, Hnet.
      split; intros ->; reflexivity.
    + answered rm_sent rm Hsent Hnet. split; intros ->; reflexivity.
    + answered rmdir_sent rmdir Hsent Hnet. split; intros ->; reflexivity.
  - intros Hcmd.
    destruct cmd; try discriminate Hcmd; simpl in *;
      rewrite info_sent in Hsent; apply sent_last in Hsent; subst r;
      (split; [reflexivity | apply info_answered, Hnet]).
Qed.

Lemma auth_failure_messages_witness :
  dispatch unauthorized parse_json gmtime (fun _ => 0) (fun _ => true) "usage"
           "http://cp.local" "wrong" None (Some (Rm "old.py")) (initial_world ∅) =
    (Ok tt,
     printed "Incorrect password"
       (requested {| method := "DELETE"; url := "http://cp.local/fs/old.py";
                     auth := Some ("", "wrong"); headers := []; data := None;
                     timeout := None |} (initial_world ∅))).
Proof.
  exact (proj1 (proj1 (auth_failure_messages unauthorized parse_json gmtime (fun _ => 0)
                         (fun _ => true) "usage" "http://cp.local" "wrong" None
                         (Rm "old.py") (initial_world ∅) _
                         {| status_code := 401; text := "{}" |} eq_refl eq_refl)
                      eq_refl) eq_refl).
Defined.

(** ** Configuration *)

(** C9. After the flags have overridden the values of the environment: an
    unset host makes [main] print ["Error: CPREMOTE_HOST is not set"] and
    return; a set host with an unset password makes it print
    ["Error: CPREMOTE_PASSWORD is not set"] and return; in both cases no
    request is issued and nothing else changes.  Otherwise the sub-command
    runs on the overridden values.  A flag that is given is the value used,
    whatever the environment holds; a flag that is absent leaves the value
    of the environment. *)
Theorem configuration_errors_and_precedence
    net json_loads localtime clock can_write help_text environ
    (args : Namespace) (w : World) :
  let host := override (args_host args) (getenv environ "CPREMOTE_HOST") in
  let password := override (args_password args) (getenv environ "CPREMOTE_PASSWORD") in
  let units := override (args_units args) (getenv environ "CPREMOTE_UNITS") in
  let run := main net json_loads localtime clock can_write help_text environ args w in
  (host = None ->
   run = (Ok tt, printed "Error: CPREMOTE_HOST is not set" w) /\
   sent (snd run) = sent w) /\
  (host <> None -> password = None ->
   run = (Ok tt, printed "Error: CPREMOTE_PASSWORD is not set" w) /\
   sent (snd run) = sent w) /\
  (forall h p, host = Some h -> password = Some p ->
   run = dispatch net json_loads localtime clock can_write help_text h p units
                  (args_command args) w) /\
  (forall A (flag : A) (value : option A), override (Some flag) value = Some flag) /\
  (forall A (value : option A), override None value = value).
Proof.
  intros host password units run. subst run. unfold main. fold host password units.
  split; [| split; [| split; [| split]]].
  - intros Hhost. rewrite Hhost. split; reflexivity.
  - intros Hhost Hpassword. destruct host; [| congruence].
    rewrite Hpassword. split; reflexivity.
  - intros h p Hhost Hpassword. rewrite Hhost, Hpassword. reflexivity.
  - reflexivity.
  - reflexivity.
Qed.

Lemma configuration_errors_and_precedence_witness :
  main always_created parse_json gmtime (fun _ => 0) (fun _ => true) "usage" ∅
       {| args_host := None; args_password := Some "secret"; args_units := None;
          args_command := Some (Ls "/") |} (initial_world ∅) =
    (Ok tt, printed "Error: CPREMOTE_HOST is not set" (initial_world ∅)) /\
  sent (snd (main always_created parse_json gmtime (fun _ => 0) (fun _ => true) "usage" ∅
                  {| args_host := None; args_password := Some "secret";
                     args_units := None; args_command := Some (Ls "/") |}
                  (initial_world ∅))) = sent (initial_world ∅).
Proof.
  exact (proj1 (configuration_errors_and_precedence always_created parse_json gmtime
                  (fun _ => 0) (fun _ => true) "usage" ∅
                  {| args_host := None; args_password := Some "secret";
                     args_units := None; args_command := Some (Ls "/") |}
                  (initial_world ∅)) eq_refl).
Defined.

(** A run without a host, and a run whose flag overrides the environment. *)
Example host_not_set :
  main always_created parse_json gmtime (fun _ => 0) (fun _ => true) "usage" ∅
       (no_flags (Some (Ls "/"))) (initial_world ∅) =
    (Ok tt, printed "Error: CPREMOTE_HOST is not set" (initial_world ∅)).
Proof. reflexivity. Qed.

Example password_not_set :
  main always_created parse_json gmtime (fun _ => 0) (fun _ => true) "usage"
       (<["CPREMOTE_HOST" := "http://cp.local"]> ∅)
       (no_flags (Some (Ls "/"))) (initial_world ∅) =
    (Ok tt, printed "Error: CPREMOTE_PASSWORD is not set" (initial_world ∅)).
Proof. vm_compute. reflexivity. Qed.

Example flag_overrides_environment :
  sent (snd (main always_created parse_json gmtime (fun _ => 0) (fun _ => true) "usage"
                  configured
                  {| args_host := Some "http://other.local"; args_password := None;
                     args_units := None; args_command := Some (Rm "old.py") |}
                  (initial_world ∅))) =
    [ {| method := "DELETE"; url := "http://other.local/fs/old.py";
         auth := Some ("", "secret"); headers := []; data := None; timeout := None |} ].
Proof. vm_compute. reflexivity. Qed.

(** ** The summary of a listing *)

Lemma kilobytes_of_51200 :
  py_truediv_int (PInt 51200) 1024 = Ok (S754_finite false 7036874417766400 (-47)) /\
  float_repr (S754_finite false 7036874417766400 (-47)) = "50.0".
Proof. split; vm_compute; reflexivity. Qed.

Lemma kilobytes_of_102400 :
  py_truediv_int (PInt 102400) 1024 = Ok (S754_finite false 7036874417766400 (-46)) /\
  float_repr (S754_finite false 7036874417766400 (-46)) = "100.0".
Proof. split; vm_compute; reflexivity. Qed.

(** C5. With [free = 100], [total = 200] and [block_size = 512] in the
    listing, the summary prints the counts 100 and 200 as they are for the
    units [blocks], and equally when no units are configured (the name then
    prints as [None]); for [b] it prints 51200 and 102400, the counts times
    the block size; for [kb] it prints 50.0 and 100.0, the byte counts
    divided by 1024 as floats. *)
Theorem summary_units (data writable : pyval) (w : World) :
  py_getitem data "free" = Ok (PInt 100) ->
  py_getitem data "total" = Ok (PInt 200) ->
  py_getitem data "block_size" = Ok (PInt 512) ->
  py_getitem data "writable" = Ok writable ->
  ls_summary (Some "blocks") data w =
    (Ok tt, printed ("free: 100 blocks, total: 200 blocks, block size: 512, writable: "
                     +:+ py_str writable) w) /\
  ls_summary None data w =
    (Ok tt, printed ("free: 100 None, total: 200 None, block size: 512, writable: "
                     +:+ py_str writable) w) /\
  ls_summary (Some "b") data w =
    (Ok tt, printed ("free: 51200 b, total: 102400 b, block size: 512, writable: "
                     +:+ py_str writable) w) /\
  ls_summary (Some "kb") data w =
    (Ok tt, printed ("free: 50.0 kb, total: 100.0 kb, block size: 512, writable: "
                     +:+ py_str writable) w).
Proof.
  intros Hfree Htotal Hblock Hwritable.
  unfold ls_summary, bind, lift. rewrite Hfree, Htotal, Hblock, Hwritable.
  split; [reflexivity | split; [reflexivity | split; [reflexivity |]]].
  change (opt_str_eqb (Some "kb") "b") with false.
  change (opt_str_eqb (Some "kb") "kb") with true.
  change (py_mul (PInt 100) (PInt 512)) with (@Ok pyval (PInt 51200)).
  change (py_mul (PInt 200) (PInt 512)) with (@Ok pyval (PInt 102400)).
  cbv beta iota.
  rewrite (proj1 kilobytes_of_51200), (proj1 kilobytes_of_102400).
  cbv beta iota delta [ret py_str py_repr units_text].
  rewrite (proj2 kilobytes_of_51200), (proj2 kilobytes_of_102400).
  reflexivity.
Qed.

Lemma summary_units_witness :
  ls_summary (Some "blocks") sample_listing (initial_world ∅) =
    (Ok tt, printed ("free: 100 blocks, total: 200 blocks, block size: 512, writable: "
                     +:+ py_str (PBool true)) (initial_world ∅)) /\
  ls_summary None sample_listing (initial_world ∅) =
    (Ok tt, printed ("free: 100 None, total: 200 None, block size: 512, writable: "
                     +:+ py_str (PBool true)) (initial_world ∅)) /\
  ls_summary (Some "b") sample_listing (initial_world ∅) =
    (Ok tt, printed ("free: 51200 b, total: 102400 b, block size: 512, writable: "
                     +:+ py_str (PBool true)) (initial_world ∅)) /\
  ls_summary (Some "kb") sample_listing (initial_world ∅) =
    (Ok tt, printed ("free: 50.0 kb, total: 100.0 kb, block size: 512, writable: "
                     +:+ py_str (PBool true)) (initial_world ∅)).
Proof.
  apply (summary_units sample_listing (PBool true) (initial_world ∅));
    reflexivity.
Defined.

(** ** The modified column of a listing *)

(** The two forms of the column, spelled out: ["Mon DD HH:MM"] and
    ["Mon DD  YYYY"]. *)
Lemma modified_column_forms (t current_time : struct_time) :
  modified_column t current_time =
    if tm_year t =? tm_year current_time
    then month_abbr (tm_mon t) +:+ " " +:+ zero_pad 2 (str_int (tm_mday t)) +:+ " " +:+
         zero_pad 2 (str_int (tm_hour t)) +:+ ":" +:+ zero_pad 2 (str_int (tm_min t))
    else month_abbr (tm_mon t) +:+ " " +:+ zero_pad 2 (str_int (tm_mday t)) +:+ "  " +:+
         str_int (tm_year t).
Proof.
  unfold modified_column. destruct (tm_year t =? tm_year current_time).
  - cbn [strftime directive Ascii.eqb Bool.eqb]. rewrite !append_empty_r. reflexivity.
  - cbn [strftime directive Ascii.eqb Bool.eqb]. rewrite !append_empty_r. reflexivity.
Qed.

(** True division of an integer gives a finite float or raises. *)
Lemma truediv_int_finite (z : Z) (n : positive) (f : spec_float) :
  py_truediv_int (PInt z) n = Ok f -> float_is_finite f = true.
Proof.
  unfold py_truediv_int. destruct z as [| p | p].
  - intros H. injection H as <-. reflexivity.
  - destruct (float_is_finite (float_of_ratio false p n)) eqn:E; [| discriminate].
    intros H. injection H as <-. exact E.
  - destruct (float_is_finite (float_of_ratio true p n)) eqn:E; [| discriminate].
    intros H. injection H as <-. exact E.
Qed.

(** The line [ls] prints for one entry.  The time of the entry is the local
    time of [modified_ns / 1000000000], a float, rounded down to a whole
    second; the column takes the form ["Mon DD HH:MM"] when the year of that
    time is the year of the clock's reading, and ["Mon DD  YYYY"]
    otherwise. *)
Lemma ls_entry_line localtime clock (file is_dir size name : pyval) (ns : Z)
    (secs : spec_float) (t now : struct_time) (w : World) :
  py_getitem file "directory" = Ok is_dir ->
  py_getitem file "modified_ns" = Ok (PInt ns) ->
  (py_truthy is_dir = false -> py_getitem file "file_size" = Ok size) ->
  py_getitem file "name" = Ok name ->
  localtime (clock (clock_reads w)) = Some now ->
  py_truediv_int (PInt ns) 1000000000 = Ok secs ->
  localtime (float_floor secs) = Some t ->
  ls_entry localtime clock file w =
    (Ok tt,
     printed ((if py_truthy is_dir then "" else py_str size) +:+
              String tab (modified_column t now) +:+
              String tab (py_str name) +:+
              (if py_truthy is_dir then "/" else ""))
             (ticked w)).
Proof.
  intros Hdir Hns Hsize Hname Hnow Hsecs Ht.
  pose proof (truediv_int_finite _ _ _ Hsecs) as Hfin.
  unfold ls_entry, bind, lift, localtime_now, localtime_of.
  rewrite Hdir, Hnow, Hns, Hsecs.
  destruct secs as [s | s | | s m e]; try discriminate Hfin; rewrite Ht;
    unfold ret; destruct (py_truthy is_dir) eqn:Edir; cbn [String.eqb Ascii.eqb];
    try rewrite (Hsize eq_refl); rewrite Hname; reflexivity.
Qed.

(** C6 at the failing input.  The clock reads 5 March 2024 and the time zone
    is UTC.  The entry was modified at 23:59:59.999999999 on 31 December
    2023, so its year is not the current year; yet [modified_ns /
    1000000000] is the float 1704067200.0, the first second of 2024, and
    [ls] prints the column in the form of the current year. *)
Theorem modified_column_rounds_into_next_year :
  gmtime (1704067199999999999 / 1000000000) =
    Some {| tm_year := 2023; tm_mon := 12; tm_mday := 31;
            tm_hour := 23; tm_min := 59; tm_sec := 59 |} /\
  gmtime 1709635445 =
    Some {| tm_year := 2024; tm_mon := 3; tm_mday := 5;
            tm_hour := 10; tm_min := 44; tm_sec := 5 |} /\
  option_map float_repr
    (match py_truediv_int (PInt 1704067199999999999) 1000000000 with
     | Ok f => Some f
     | Raise _ => None
     end) = Some "1704067200.0" /\
  ls_entry gmtime (fun _ => 1709635445) new_year_eve_entry (initial_world ∅) =
    (Ok tt,
     printed ("22" +:+ String tab "Jan 01 00:00" +:+ String tab "boot.py")
             (ticked (initial_world ∅))).
Proof. repeat split; vm_compute; reflexivity. Qed.

(** The same listing for a file written a second earlier, and for one
    written in the current year: the column is as the rule says. *)
Example modified_column_examples :
  ls_entry gmtime (fun _ => 1709635445)
    (PDict [("name", PStr "boot.py"); ("directory", PBool false);
            ("modified_ns", PInt 1704067199000000000); ("file_size", PInt 22)])
    (initial_world ∅) =
    (Ok tt,
     printed ("22" +:+ String tab "Dec 31  2023" +:+ String tab "boot.py")
             (ticked (initial_world ∅))) /\
  ls_entry gmtime (fun _ => 1709635445)
    (PDict [("name", PStr "lib"); ("directory", PBool true);
            ("modified_ns", PInt 1707000000000000000); ("file_size", PInt 0)])
    (initial_world ∅) =
    (Ok tt,
     printed ("" +:+ String tab "Feb 03 22:40" +:+ String tab "lib/")
             (ticked (initial_world ∅))).
Proof. split; vm_compute; reflexivity. Qed.

(** ** A whole listing *)

(** The decoder reads back what the encoder wrote. *)
Example listing_decodes : parse_json (json_dumps 4 two_entries) = Some two_entries.
Proof. vm_compute. reflexivity. Qed.

(** [cpremote --units kb ls foo] on 5 March 2024, in UTC: one request with a
    trailing slash and a timeout, the two header lines, one line per entry
    in the order of the answer, and the summary. *)
Example ls_whole_listing :
  ls listing parse_json gmtime (fun _ => 1709635445) "http://cp.local" "secret"
     (Some "kb") "foo" (initial_world ∅) =
    (Ok tt,
     {| stdout :=
          [ "Host http://cp.local, directory foo/";
            "Size" +:+ String tab "Modified" +:+ String tab "Name";
            "22" +:+ String tab "Mar 05 10:44" +:+ String tab "code.py";
            "" +:+ String tab "Jan 01  2000" +:+ String tab "lib/";
            "free: 50.0 kb, total: 100.0 kb, block size: 512, writable: True" ];
        sent :=
          [ {| method := "GET"; url := "http://cp.local/fs/foo/";
               auth := Some ("", "secret");
               headers := [("Accept", "application/json")]; data := None;
               timeout := Some 5 |} ];
        local_files := ∅; opened := []; clock_reads := 2 |}).
Proof. vm_compute. reflexivity. Qed.

(** * Further properties *)

(** ** What a run leaves untouched *)

Section Keeps.

Context {B : Type}.
Variable f : World -> B.

(** [f] does not look at the texts printed, the requests sent or the clock. *)
Hypothesis f_printed : forall s w, f (printed s w) = f w.
Hypothesis f_requested : forall r w, f (requested r w) = f w.
Hypothesis f_ticked : forall w, f (ticked w) = f w.

Lemma keeps_ret {A} (a : A) : keeps f (ret a).
Proof using Type. intros w. reflexivity. Qed.

Lemma keeps_raise {A} (e : exn) : keeps f (@raise A e).
Proof using Type. intros w. reflexivity. Qed.

Lemma keeps_lift {A} (r : result A) : keeps f (lift r).
Proof using Type. intros w. reflexivity. Qed.

Lemma keeps_bind {A C} (c : M A) (k : A -> M C) :
  keeps f c -> (forall a, keeps f (k a)) -> keeps f (bind c k).
Proof using Type.
  intros Hc Hk w. unfold bind. specialize (Hc w).
  destruct (c w) as [[a | e] w']; simpl in *.
  - rewrite Hk. exact Hc.
  - exact Hc.
Qed.

Lemma keeps_for_each {A} (l : list A) (body : A -> M unit) :
  (forall x, keeps f (body x)) -> keeps f (for_each l body).
Proof using Type.
  intros Hb. induction l as [| x l IH]; simpl.
  - apply keeps_ret.
  - apply keeps_bind; [apply Hb | intros _; exact IH].
Qed.

Lemma keeps_print (s : string) : keeps f (print s).
Proof using f_printed. intros w. apply f_printed. Qed.

Lemma keeps_read_file (path : string) : keeps f (read_file path).
Proof using Type. intros w. unfold read_file. destruct (local_files w !! path); reflexivity. Qed.

Lemma keeps_decode_json json_loads (body : string) : keeps f (decode_json json_loads body).
Proof using Type.
  unfold decode_json. destruct (json_loads body); [apply keeps_ret | apply keeps_raise].
Qed.

Lemma keeps_requests_request net (r : Request) : keeps f (requests_request net r).
Proof using f_requested.
  intros w. unfold requests_request. destruct (net r); apply f_requested.
Qed.

Lemma keeps_localtime_now localtime clock : keeps f (localtime_now localtime clock).
Proof using f_ticked.
  intros w. unfold localtime_now.
  destruct (localtime (clock (clock_reads w))); apply f_ticked.
Qed.

Lemma keeps_localtime_of localtime (secs : spec_float) :
  keeps f (localtime_of localtime secs).
Proof using Type.
  unfold localtime_of.
  destruct secs; try apply keeps_raise;
    match goal with |- context [localtime ?x] => destruct (localtime x) end;
    first [apply keeps_ret | apply keeps_raise].
Qed.

End Keeps.

(** Splits a computation at its binds and tests, as [frame] does, for a
    component that printing, requesting and reading the clock leave alone. *)
Ltac keeping :=
  repeat first
    [ progress intros
    | reflexivity
    | apply keeps_ret | apply keeps_raise | apply keeps_lift
    | apply keeps_print | apply keeps_read_file | apply keeps_decode_json
    | apply keeps_requests_request | apply keeps_localtime_now
    | apply keeps_localtime_of
    | apply keeps_bind
    | apply keeps_for_each
    | match goal with
      | |- keeps _ (if ?b then _ else _) => destruct b
      | |- keeps _ (match ?x with _ => _ end) => destruct x
      end ].

Lemma keeps_files_webbrowser_open (u : string) : keeps local_files (webbrowser_open u).
Proof. intros w. reflexivity. Qed.

Lemma keeps_opened_write_file can_write (path content : string) :
  keeps opened (write_file can_write path content).
Proof. intros w. unfold write_file. destruct (can_write path); reflexivity. Qed.

Lemma keeps_files_ls net json_loads localtime clock host password units directory :
  keeps local_files (ls net json_loads localtime clock host password units directory).
Proof. unfold ls, ls_entry, ls_summary. keeping. Qed.

(** X2. Local files change in one case only: [get] with a destination,
    answered with status 200, on a path that can be opened for writing; the
    file at the destination then holds the response body.  Every other run
    of an operation, [put] included, leaves every local file as it was. *)
Theorem local_files_written_only_by_get
    net json_loads localtime clock can_write help_text host password units
    (cmd : command) (w : World) :
  local_files (snd (dispatch net json_loads localtime clock can_write help_text
                             host password units (Some cmd) w)) =
    match cmd with
    | Get src (Some dst) =>
        match net {| method := "GET"; url := host +:+ "/fs/" +:+ src;
                     auth := Some ("", password); headers := []; data := None;
                     timeout := None |} with
        | Responded resp =>
            if (status_code resp =? 200) && can_write dst
            then <[dst := text resp]> (local_files w)
            else local_files w
        | Failed _ => local_files w
        end
    | _ => local_files w
    end.
Proof.
  destruct cmd as [| | src dst | d | d | src dst | src dst | | file | d |];
    lazy beta iota delta [dispatch].
  - unfold info. keeping.
  - unfold info. keeping.
  - destruct dst as [dst |]; [| unfold get; keeping].
    unfold get, bind, requests_request, HTTPBasicAuth.
    match goal with |- context [net ?r] => destruct (net r) as [resp | e] end;
      [| reflexivity].
    destruct (status_code resp =? 200); simpl.
    + unfold write_file. destruct (can_write dst); reflexivity.
    + repeat match goal with
             | |- context [if ?b then _ else _] => destruct b
             end; reflexivity.
  - apply keeps_files_ls.
  - unfold mkdir. keeping.
  - unfold mv. keeping.
  - unfold put. keeping.
  - reflexivity.
  - unfold rm. keeping.
  - unfold rmdir. keeping.
  - unfold info. keeping.
Qed.

(** X3. The browser is opened by [repl] only, on [host + '/cp/serial/'];
    [repl] prints nothing, sends no request and returns; no other operation
    opens the browser. *)
Theorem browser_opened_only_by_repl
    net json_loads localtime clock can_write help_text host password units
    (cmd : command) (w : World) :
  let run := dispatch net json_loads localtime clock can_write help_text
                      host password units (Some cmd) w in
  match cmd with
  | Repl =>
      fst run = Ok tt /\
      opened (snd run) = opened w ++ [host +:+ "/cp/serial/"] /\
      stdout (snd run) = stdout w /\ sent (snd run) = sent w
  | _ => opened (snd run) = opened w
  end.
Proof.
  destruct cmd as [| | src dst | d | d | src dst | src dst | | file | d |]; simpl.
  - unfold info. keeping.
  - unfold info. keeping.
  - unfold get. keeping; apply keeps_opened_write_file.
  - unfold ls, ls_entry, ls_summary. keeping.
  - unfold mkdir. keeping.
  - unfold mv. keeping.
  - unfold put. keeping.
  - repeat split.
  - unfold rm. keeping.
  - unfold rmdir. keeping.
  - unfold info. keeping.
Qed.

(** ** Downloading a file *)



(** X4. A [get] with a destination that is answered with status 200 but
    cannot open the destination for writing raises the error of [open]
    after the request was sent: nothing is printed, not even the body, and
    no local file changes. *)
Theorem get_unwritable_destination
    net can_write host password (src dst : string) (w : World) (resp : Response) :
  let request := {| method := "GET"; url := host +:+ "/fs/" +:+ src;
                    auth := Some ("", password); headers := []; data := None;
                    timeout := None |} in
  net request = Responded resp ->
  status_code resp = 200 ->
  can_write dst = false ->
  get net can_write host password src (Some dst) w =
    (Raise (OSError dst), requested request w).
Proof.
  intros request Hnet Hstatus Hwrite.
  unfold get. fold request. rewrite (request_answered _ _ _ _ _ Hnet).
  cbv beta. rewrite Hstatus. unfold bind, write_file. simpl.
  rewrite Hwrite. reflexivity.
Qed.

Lemma get_unwritable_destination_witness :
  get listing (fun _ => false) "http://cp.local" "secret" "code.py" (Some "/copy.py")
      (initial_world ∅) =
    (Raise (OSError "/copy.py"),
     requested {| method := "GET"; url := "http://cp.local/fs/code.py";
                  auth := Some ("", "secret"); headers := []; data := None;
                  timeout := None |} (initial_world ∅)).
Proof.
  exact (get_unwritable_destination listing (fun _ => false) "http://cp.local" "secret"
           "code.py" "/copy.py" (initial_world ∅)
           {| status_code := 200; text := json_dumps 4 two_entries |}
           eq_refl eq_refl eq_refl).
Defined.

(** ** The status tables *)

(** Runs one operation on the request it sent and the answer it got. *)
Ltac responded sent_lemma op Hsent Hnet :=
  rewrite sent_lemma in Hsent; apply sent_last in Hsent; subst;
  unfold op; rewrite (request_answered _ _ _ _ _ Hnet); cbv beta zeta.

(** Decides every status test of the goal in turn. *)
Ltac by_status :=
  repeat match goal with
         | |- context [if ?a =? ?b then _ else _] => destruct (a =? b) eqn:?
         end;
  try reflexivity; try discriminate.

(** X5. The chain of status tests of every file-system operation is a table
    lookup with a default.  Whenever the operation got a response, other
    than a 200 for [get] or [ls], it prints exactly one text and returns:
    the first message its table has for the status, or the unknown-status
    text when the table has none. *)
Theorem status_chain_is_table_lookup
    net json_loads localtime clock can_write help_text host password units
    (cmd : command) (w : World) (r : Request) (resp : Response) :
  is_filesystem_command cmd = true ->
  sent (snd (dispatch net json_loads localtime clock can_write help_text
                      host password units (Some cmd) w)) = sent w ++ [r] ->
  net r = Responded resp ->
  reads_body_on_200 cmd && (status_code resp =? 200) = false ->
  dispatch net json_loads localtime clock can_write help_text host password units
           (Some cmd) w =
    (Ok tt, printed (message_for cmd resp) (requested r w)).
Proof.
  intros Hcmd Hsent Hnet H200.
  destruct cmd as [| | src dst | d | d | src dst | src dst | | file | d |];
    try discriminate Hcmd; lazy beta iota delta [dispatch] in *;
    unfold message_for, status_table, table_lookup;
    simpl in H200.
  - responded get_sent get Hsent Hnet. rewrite H200. by_status.
  - responded ls_sent ls Hsent Hnet. rewrite H200. by_status.
  - responded mkdir_sent mkdir Hsent Hnet. by_status.
  - responded mv_sent mv Hsent Hnet. by_status.
  - rewrite put_sent in Hsent.
    destruct (local_files w !! src) as [content |] eqn:Hfile;
      [| destruct (sent_not_extended _ _ Hsent)].
    apply sent_last in Hsent. subst r.
    unfold put, bind, read_file, requests_request, HTTPBasicAuth.
    rewrite Hfile, Hnet. by_status.
  - responded rm_sent rm Hsent Hnet. by_status.
  - responded rmdir_sent rmdir Hsent Hnet. by_status.
Qed.

Lemma status_chain_is_table_lookup_witness :
  dispatch busy parse_json gmtime (fun _ => 0) (fun _ => true) "usage"
           "http://cp.local" "secret" None (Some (Rmdir "lib")) (initial_world ∅) =
    (Ok tt,
     printed "USB is active and preventing file system modification"
       (requested {| method := "DELETE"; url := "http://cp.local/fs/lib/";
                     auth := Some ("", "secret"); headers := []; data := None;
                     timeout := None |} (initial_world ∅))).
Proof.
  exact (status_chain_is_table_lookup busy parse_json gmtime (fun _ => 0)
           (fun _ => true) "usage" "http://cp.local" "secret" None (Rmdir "lib")
           (initial_world ∅) _ {| status_code := 409; text := "" |}
           eq_refl eq_refl eq_refl eq_refl).
Defined.

(** ** What the configuration is used for *)

(** X6. The password and the units are used by few runs.  The info
    operations and [repl] run the same under any password; every operation
    but [ls] runs the same under any units, and so does an [ls] whose
    request fails or is answered with a status other than 200. *)
Theorem password_and_units_seldom_used
    net json_loads localtime clock can_write help_text host
    (password password' : string) (units units' : option string)
    (cmd : command) (w : World) :
  (is_filesystem_command cmd = false ->
   dispatch net json_loads localtime clock can_write help_text host password units
            (Some cmd) w =
   dispatch net json_loads localtime clock can_write help_text host password' units'
            (Some cmd) w) /\
  match cmd with
  | Ls directory =>
      match net {| method := "GET"; url := host +:+ "/fs/" +:+ with_slash directory;
                   auth := Some ("", password);
                   headers := [("Accept", "application/json")]; data := None;
                   timeout := Some 5 |} with
      | Responded resp =>
          (status_code resp =? 200) = false ->
          dispatch net json_loads localtime clock can_write help_text host password
                   units (Some cmd) w =
          dispatch net json_loads localtime clock can_write help_text host password
                   units' (Some cmd) w
      | Failed _ =>
          dispatch net json_loads localtime clock can_write help_text host password
                   units (Some cmd) w =
          dispatch net json_loads localtime clock can_write help_text host password
                   units' (Some cmd) w
      end
  | _ =>
      dispatch net json_loads localtime clock can_write help_text host password units
               (Some cmd) w =
      dispatch net json_loads localtime clock can_write help_text host password units'
               (Some cmd) w
  end.
Proof.
  split.
  - destruct cmd; intros Hcmd; try discriminate Hcmd; reflexivity.
  - destruct cmd as [| | src dst | d | d | src dst | src dst | | file | d |];
      try reflexivity.
    lazy beta iota delta [dispatch].
    unfold ls, bind, requests_request, HTTPBasicAuth.
    match goal with |- context [net ?r] => destruct (net r) as [resp | e] end.
    + intros H200. rewrite H200. reflexivity.
    + reflexivity.
Qed.



Lemma password_and_units_seldom_used_witness :
  dispatch always_created parse_json gmtime (fun _ => 0) (fun _ => true) "usage"
           "http://cp.local" "secret" None (Some Version) (initial_world ∅) =
  dispatch always_created parse_json gmtime (fun _ => 0) (fun _ => true) "usage"
           "http://cp.local" "another" (Some "kb") (Some Version) (initial_world ∅).
Proof.
  exact (proj1 (password_and_units_seldom_used always_created parse_json gmtime
                  (fun _ => 0) (fun _ => true) "usage" "http://cp.local"
                  "secret" "another" None (Some "kb") Version (initial_world ∅))
               eq_refl).
Defined.

(** ** The requests on the wire *)

Lemma append_assoc (a b c : string) : (a +:+ b) +:+ c = a +:+ b +:+ c.
Proof.
  induction a as [| x a IH]; simpl; [reflexivity | f_equal; exact IH].
Qed.

Lemma startswith_prefix (a b c : string) : startswith (a +:+ b +:+ c) (a +:+ b) = true.
Proof. rewrite <- append_assoc. apply startswith_app. Qed.

Lemma endswith_app_r (a b suffix : string) :
  endswith b suffix = true -> endswith (a +:+ b) suffix = true.
Proof.
  intros H. induction a as [| x a IH]; simpl.
  - exact H.
  - rewrite IH. apply orb_true_r.
Qed.

(** X8. Whatever directory [ls], [mkdir] or [rmdir] is given, the empty text
    included, the URL of its request ends with ['/']; and the operation runs
    on a directory as it runs on that directory with the slash already
    appended. *)
Theorem directory_urls_end_with_slash
    net json_loads localtime clock host password units (directory : string) (w : World) :
  (exists r, sent (snd (ls net json_loads localtime clock host password units
                           directory w)) = sent w ++ [r] /\
             endswith (url r) "/" = true) /\
  (exists r, sent (snd (mkdir net host password directory w)) = sent w ++ [r] /\
             endswith (url r) "/" = true) /\
  (exists r, sent (snd (rmdir net host password directory w)) = sent w ++ [r] /\
             endswith (url r) "/" = true) /\
  ls net json_loads localtime clock host password units (with_slash directory) w =
    ls net json_loads localtime clock host password units directory w /\
  mkdir net host password (with_slash directory) w = mkdir net host password directory w /\
  rmdir net host password (with_slash directory) w = rmdir net host password directory w.
Proof.
  assert (E : endswith (host +:+ "/fs/" +:+ with_slash directory) "/" = true)
    by (apply endswith_app_r, (endswith_app_r "/fs/"), with_slash_ends).
  split; [| split; [| split; [| split; [| split]]]].
  - eexists. split; [apply ls_sent | exact E].
  - eexists. split; [apply mkdir_sent | exact E].
  - eexists. split; [apply rmdir_sent | exact E].
  - unfold ls. rewrite with_slash_idempotent. reflexivity.
  - unfold mkdir. rewrite with_slash_idempotent. reflexivity.
  - unfold rmdir. rewrite with_slash_idempotent. reflexivity.
Qed.

(** X9. Every request an operation issues goes to the configured host.  A
    file-system operation addresses [host + '/fs/'] and authenticates with
    an empty user name and the configured password; an info operation
    addresses [host + '/cp/'] and sends no credentials.  The method is GET
    for [get], [ls] and the info operations, PUT for [mkdir] and [put], MOVE
    for [mv] and DELETE for [rm] and [rmdir]; only [put] sends a body, only
    [ls] and [mv] send headers. *)
Theorem requests_on_the_wire
    net json_loads localtime clock can_write help_text host password units
    (cmd : command) (w : World) (r : Request) :
  sent (snd (dispatch net json_loads localtime clock can_write help_text
                      host password units (Some cmd) w)) = sent w ++ [r] ->
  method r = method_of cmd /\
  (if is_filesystem_command cmd
   then startswith (url r) (host +:+ "/fs/") = true /\ auth r = Some ("", password)
   else startswith (url r) (host +:+ "/cp/") = true /\ auth r = None) /\
  match cmd with
  | Put src _ => data r = local_files w !! src /\ headers r = []
  | Ls _ => data r = None /\ headers r = [("Accept", "application/json")]
  | Mv _ dst => data r = None /\ headers r = [("X-Destination", "/fs/" +:+ dst)]
  | _ => data r = None /\ headers r = []
  end.
Proof.
  intros Hsent.
  destruct cmd as [| | src dst | d | d | src dst | src dst | | file | d |];
    lazy beta iota delta [dispatch] in Hsent.
  - rewrite info_sent in Hsent. apply sent_last in Hsent. subst r.
    repeat split. apply startswith_prefix.
  - rewrite info_sent in Hsent. apply sent_last in Hsent. subst r.
    repeat split. apply startswith_prefix.
  - rewrite get_sent in Hsent. apply sent_last in Hsent. subst r.
    repeat split. apply startswith_prefix.
  - rewrite ls_sent in Hsent. apply sent_last in Hsent. subst r.
    repeat split. apply startswith_prefix.
  - rewrite mkdir_sent in Hsent. apply sent_last in Hsent. subst r.
    repeat split. apply startswith_prefix.
  - rewrite mv_sent in Hsent. apply sent_last in Hsent. subst r.
    repeat split. apply startswith_prefix.
  - rewrite put_sent in Hsent.
    destruct (local_files w !! src) as [content |] eqn:Hfile;
      [| destruct (sent_not_extended _ _ Hsent)].
    apply sent_last in Hsent. subst r.
    repeat split. apply startswith_prefix.
  - destruct (sent_not_extended _ _ Hsent).
  - rewrite rm_sent in Hsent. apply sent_last in Hsent. subst r.
    repeat split. apply startswith_prefix.
  - rewrite rmdir_sent in Hsent. apply sent_last in Hsent. subst r.
    repeat split. apply startswith_prefix.
  - rewrite info_sent in Hsent. apply sent_last in Hsent. subst r.
    repeat split. apply startswith_prefix.
Qed.

Lemma requests_on_the_wire_witness :
  let r := {| method := "MOVE"; url := "http://cp.local/fs/a.txt";
              auth := Some ("", "secret"); headers := [("X-Destination", "/fs/b.txt")];
              data := None; timeout := None |} in
  method r = "MOVE" /\
  (startswith (url r) "http://cp.local/fs/" = true /\ auth r = Some ("", "secret")) /\
  (data r = None /\ headers r = [("X-Destination", "/fs/b.txt")]).
Proof.
  exact (requests_on_the_wire always_created parse_json gmtime (fun _ => 0)
           (fun _ => true) "usage" "http://cp.local" "secret" None
           (Mv "a.txt" "b.txt") (initial_world ∅)
           {| method := "MOVE"; url := "http://cp.local/fs/a.txt";
              auth := Some ("", "secret"); headers := [("X-Destination", "/fs/b.txt")];
              data := None; timeout := None |} eq_refl).
Defined.

(** ** The listing *)

Lemma with_slash_not_empty (directory : string) :
  String.eqb (with_slash directory) "" = false.
Proof.
  pose proof (with_slash_ends directory) as H.
  destruct (with_slash directory); [discriminate H | reflexivity].
Qed.

(** A loop over two lists in a row runs the second where the first ended,
    unless the first raised. *)
Lemma for_each_app {A} (l1 l2 : list A) (body : A -> M unit) (w : World) :
  for_each (l1 ++ l2) body w =
    match for_each l1 body w with
    | (Ok _, w') => for_each l2 body w'
    | (Raise e, w') => (Raise e, w')
    end.
Proof.
  revert w. induction l1 as [| x l1 IH]; intros w; simpl.
  - reflexivity.
  - unfold bind. destruct (body x w) as [[[] | e] w1]; [apply IH | reflexivity].
Qed.

(** One listable entry gives one line and one reading of the clock. *)
Lemma ls_entry_listable localtime clock (file : pyval) (now : struct_time) (w : World) :
  listable localtime file = true ->
  localtime (clock (clock_reads w)) = Some now ->
  exists t,
    ls_entry localtime clock file w =
      (Ok tt, printed (entry_line file (modified_column t now)) (ticked w)).
Proof.
  unfold listable. intros Hfile Hnow.
  destruct (py_getitem file "directory") as [is_dir |] eqn:Hdir; [| discriminate].
  destruct (py_getitem file "modified_ns") as [[| | ns | | | |] |] eqn:Hns;
    try discriminate.
  destruct (py_getitem file "name") as [name |] eqn:Hname; [| discriminate].
  destruct (py_truediv_int (PInt ns) 1000000000) as [secs |] eqn:Hsecs; [| discriminate].
  destruct (localtime (float_floor secs)) as [t |] eqn:Ht; [| discriminate].
  exists t.
  destruct (py_getitem file "file_size") as [size | e] eqn:Hsize.
  - rewrite (ls_entry_line localtime clock file is_dir size name ns secs t now w
               Hdir Hns (fun _ => Hsize) Hname Hnow Hsecs Ht).
    unfold entry_line, entry_size, entry_is_dir, entry_name.
    rewrite Hdir, Hname, Hsize. reflexivity.
  - rewrite orb_false_r in Hfile.
    rewrite (ls_entry_line localtime clock file is_dir PNone name ns secs t now w
               Hdir Hns (fun H => False_ind _ (eq_true_false_abs _ Hfile H))
               Hname Hnow Hsecs Ht).
    unfold entry_line, entry_size, entry_is_dir, entry_name.
    rewrite Hdir, Hname, Hfile. reflexivity.
Qed.

(** The state after a loop over listable entries: one line each, in their
    order, whose modified column is in one of the two forms. *)
Lemma listing_loop localtime clock (entries : list pyval) (w : World) :
  forallb (listable localtime) entries = true ->
  (forall i, localtime (clock i) <> None) ->
  exists columns,
    List.length columns = List.length entries /\
    Forall (fun column => exists t now, column = modified_column t now) columns /\
    for_each entries (ls_entry localtime clock) w =
      (Ok tt,
       {| stdout := stdout w ++ zip_with entry_line entries columns;
          sent := sent w; local_files := local_files w; opened := opened w;
          clock_reads := (clock_reads w + List.length entries)%nat |}).
Proof.
  intros Hall Hclock. revert w.
  induction entries as [| file entries IH]; intros w.
  - exists []. split; [reflexivity |]. split; [constructor |]. simpl. unfold ret.
    rewrite List.app_nil_r, Nat.add_0_r. destruct w; reflexivity.
  - simpl in Hall. apply andb_prop in Hall as [Hfile Hrest].
    destruct (localtime (clock (clock_reads w))) as [now |] eqn:Hnow;
      [| destruct (Hclock _ Hnow)].
    destruct (ls_entry_listable localtime clock file now w Hfile Hnow) as [t Hentry].
    destruct (IH Hrest (printed (entry_line file (modified_column t now)) (ticked w)))
      as [columns [Hlen [Hforms Hloop]]].
    exists (modified_column t now :: columns). split; [simpl; congruence |].
    split; [constructor; [exists t, now; reflexivity | exact Hforms] |].
    simpl. unfold bind. rewrite Hentry, Hloop. simpl.
    rewrite <- List.app_assoc. simpl.
    rewrite Nat.add_succ_r. reflexivity.
Qed.

(** The summary prints one line, or raises having printed nothing. *)
Lemma ls_summary_outcome units (data : pyval) (w : World) :
  (exists line, ls_summary units data w = (Ok tt, printed line w)) \/
  (exists e, ls_summary units data w = (Raise e, w)).
Proof.
  unfold ls_summary, bind, lift, ret.
  destruct (py_getitem data "free") as [free |]; [| right; eauto].
  destruct (py_getitem data "total") as [total |]; [| right; eauto].
  destruct (py_getitem data "block_size") as [block_size |]; [| right; eauto].
  destruct (opt_str_eqb units "b").
  - destruct (py_mul free block_size); [| right; eauto].
    destruct (py_mul total block_size); [| right; eauto].
    destruct (py_getitem data "writable"); [left | right]; eauto.
  - destruct (opt_str_eqb units "kb").
    + destruct (py_mul free block_size) as [free_bytes |]; [| right; eauto].
      destruct (py_truediv_int free_bytes 1024); [| right; eauto].
      destruct (py_mul total block_size) as [total_bytes |]; [| right; eauto].
      destruct (py_truediv_int total_bytes 1024); [| right; eauto].
      destruct (py_getitem data "writable"); [left | right]; eauto.
    + destruct (py_getitem data "writable"); [left | right]; eauto.
Qed.

(** What [ls] does with a listing it could decode. *)
Lemma ls_decoded net json_loads localtime clock host password units
    (directory : string) (w : World) (resp : Response) (data files : pyval) :
  let request := {| method := "GET"; url := host +:+ "/fs/" +:+ with_slash directory;
                    auth := Some ("", password);
                    headers := [("Accept", "application/json")]; data := None;
                    timeout := Some 5 |} in
  net request = Responded resp ->
  status_code resp = 200 ->
  json_loads (text resp) = Some data ->
  py_getitem data "files" = Ok files ->
  ls net json_loads localtime clock host password units directory w =
    (entries <- lift (py_iter files) ;;
     for_each entries (ls_entry localtime clock) ;;
     ls_summary units data)
      (printed ("Size" +:+ String tab "Modified" +:+ String tab "Name")
         (printed ("Host " +:+ host +:+ ", directory " +:+ with_slash directory)
            (requested request w))).
Proof.
  intros request Hnet Hstatus Hjson Hfiles.
  unfold ls. fold request. rewrite (request_answered _ _ _ _ _ Hnet).
  cbv beta zeta. rewrite Hstatus. change (200 =? 200) with true. cbv iota.
  unfold decode_json. rewrite Hjson.
  unfold bind at 1. unfold ret at 1. cbv beta iota.
  unfold bind at 1. unfold lift at 1. rewrite Hfiles. cbv beta iota.
  rewrite with_slash_not_empty.
  reflexivity.
Qed.

(** X10. A listing that decodes to an object whose [files] are listable
    entries is printed whole and in the order of the answer: the line naming
    the host and the directory with its slash, the line of column titles,
    then one line per entry (its size, blank for a directory; its modified
    column in one of the two forms; its name, with ['/'] after a directory)
    and last the summary, or, when the summary raises, nothing more.  The
    clock is read once per entry. *)
Theorem ls_prints_entries_in_order
    net json_loads localtime clock host password units (directory : string)
    (w : World) (resp : Response) (data : pyval) (entries : list pyval) :
  let request := {| method := "GET"; url := host +:+ "/fs/" +:+ with_slash directory;
                    auth := Some ("", password);
                    headers := [("Accept", "application/json")]; data := None;
                    timeout := Some 5 |} in
  let run := ls net json_loads localtime clock host password units directory w in
  net request = Responded resp ->
  status_code resp = 200 ->
  json_loads (text resp) = Some data ->
  py_getitem data "files" = Ok (PList entries) ->
  forallb (listable localtime) entries = true ->
  (forall i, localtime (clock i) <> None) ->
  exists columns summary,
    List.length columns = List.length entries /\
    Forall (fun column => exists t now, column = modified_column t now) columns /\
    stdout (snd run) =
      stdout w ++
      [ "Host " +:+ host +:+ ", directory " +:+ with_slash directory;
        "Size" +:+ String tab "Modified" +:+ String tab "Name" ] ++
      zip_with entry_line entries columns ++ summary /\
    ((fst run = Ok tt /\ exists line, summary = [line]) \/
     (exists e, fst run = Raise e /\ summary = [])) /\
    clock_reads (snd run) = (clock_reads w + List.length entries)%nat.
Proof.
  intros request run Hnet Hstatus Hjson Hfiles Hall Hclock.
  set (w2 := printed ("Size" +:+ String tab "Modified" +:+ String tab "Name")
               (printed ("Host " +:+ host +:+ ", directory " +:+ with_slash directory)
                  (requested request w))).
  destruct (listing_loop localtime clock entries w2 Hall Hclock)
    as [columns [Hlen [Hforms Hloop]]].
  set (w3 := {| stdout := stdout w2 ++ zip_with entry_line entries columns;
                sent := sent w2; local_files := local_files w2; opened := opened w2;
                clock_reads := (clock_reads w2 + List.length entries)%nat |}) in Hloop.
  assert (Hrun : run = ls_summary units data w3).
  { subst run.
    rewrite (ls_decoded net json_loads localtime clock host password units directory
               w resp data (PList entries) Hnet Hstatus Hjson Hfiles).
    fold request. fold w2. unfold bind, lift, py_iter. rewrite Hloop. reflexivity. }
  rewrite Hrun. clear Hrun run.
  destruct (ls_summary_outcome units data w3) as [[line Hs] | [e Hs]]; rewrite Hs.
  - exists columns, [line]. split; [exact Hlen |]. split; [exact Hforms |].
    split; [| split; [left; split; [reflexivity | eauto] | reflexivity]].
    simpl. rewrite <- !List.app_assoc. reflexivity.
  - exists columns, []. split; [exact Hlen |]. split; [exact Hforms |].
    split; [| split; [right; eauto | reflexivity]].
    simpl. rewrite <- !List.app_assoc. rewrite List.app_nil_r. reflexivity.
Qed.

Lemma ls_prints_entries_in_order_witness :
  let run := ls listing parse_json gmtime (fun _ => 1709635445) "http://cp.local"
                "secret" (Some "kb") "foo" (initial_world ∅) in
  exists columns summary,
    List.length columns = 2%nat /\
    Forall (fun column => exists t now, column = modified_column t now) columns /\
    stdout (snd run) =
      [] ++
      [ "Host " +:+ "http://cp.local" +:+ ", directory " +:+ with_slash "foo";
        "Size" +:+ String tab "Modified" +:+ String tab "Name" ] ++
      zip_with entry_line
        [ PDict [("name", PStr "code.py"); ("directory", PBool false);
                 ("modified_ns", PInt 1709635445000000000); ("file_size", PInt 22)];
          PDict [("name", PStr "lib"); ("directory", PBool true);
                 ("modified_ns", PInt 946684800000000000); ("file_size", PInt 0)] ]
        columns ++ summary /\
    ((fst run = Ok tt /\ exists line, summary = [line]) \/
     (exists e, fst run = Raise e /\ summary = [])) /\
    clock_reads (snd run) = (0 + 2)%nat.
Proof.
  refine (ls_prints_entries_in_order listing parse_json gmtime (fun _ => 1709635445)
            "http://cp.local" "secret" (Some "kb") "foo" (initial_world ∅)
            {| status_code := 200; text := json_dumps 4 two_entries |} two_entries _
            eq_refl eq_refl _ eq_refl _ _).
  - vm_compute. reflexivity.
  - vm_compute. reflexivity.
  - intros i. vm_compute. discriminate.
Defined.

(** X11. When the entry after some listable entries is not an object with a
    [directory] key, [ls] stops there with the error of the lookup: the two
    heading lines and the lines of the entries before it are already
    printed; no line is printed for it or for any later entry, and there is
    no summary. *)
Theorem ls_stops_at_malformed_entry
    net json_loads localtime clock host password units (directory : string)
    (w : World) (resp : Response) (data bad : pyval) (good rest : list pyval)
    (e : exn) :
  let request := {| method := "GET"; url := host +:+ "/fs/" +:+ with_slash directory;
                    auth := Some ("", password);
                    headers := [("Accept", "application/json")]; data := None;
                    timeout := Some 5 |} in
  let run := ls net json_loads localtime clock host password units directory w in
  net request = Responded resp ->
  status_code resp = 200 ->
  json_loads (text resp) = Some data ->
  py_getitem data "files" = Ok (PList (good ++ bad :: rest)) ->
  forallb (listable localtime) good = true ->
  (forall i, localtime (clock i) <> None) ->
  py_getitem bad "directory" = Raise e ->
  exists columns,
    List.length columns = List.length good /\
    fst run = Raise e /\
    stdout (snd run) =
      stdout w ++
      [ "Host " +:+ host +:+ ", directory " +:+ with_slash directory;
        "Size" +:+ String tab "Modified" +:+ String tab "Name" ] ++
      zip_with entry_line good columns.
Proof.
  intros request run Hnet Hstatus Hjson Hfiles Hall Hclock Hbad.
  set (w2 := printed ("Size" +:+ String tab "Modified" +:+ String tab "Name")
               (printed ("Host " +:+ host +:+ ", directory " +:+ with_slash directory)
                  (requested request w))).
  destruct (listing_loop localtime clock good w2 Hall Hclock)
    as [columns [Hlen [_ Hloop]]].
  set (w3 := {| stdout := stdout w2 ++ zip_with entry_line good columns;
                sent := sent w2; local_files := local_files w2; opened := opened w2;
                clock_reads := (clock_reads w2 + List.length good)%nat |}) in Hloop.
  assert (Hrun : run = (Raise e, w3)).
  { subst run.
    rewrite (ls_decoded net json_loads localtime clock host password units directory
               w resp data (PList (good ++ bad :: rest)) Hnet Hstatus Hjson Hfiles).
    fold request. fold w2. unfold bind at 1. unfold lift, py_iter. cbv beta iota.
    unfold bind at 1. rewrite for_each_app, Hloop. simpl.
    unfold bind at 1. unfold ls_entry at 1. unfold bind at 1. unfold lift at 1.
    rewrite Hbad. reflexivity. }
  rewrite Hrun. exists columns. split; [exact Hlen |]. split; [reflexivity |].
  simpl. rewrite <- !List.app_assoc. reflexivity.
Qed.

Lemma ls_stops_at_malformed_entry_witness :
  let run := ls broken_listing parse_json gmtime (fun _ => 1709635445) "http://cp.local"
                "secret" None "/" (initial_world ∅) in
  exists columns,
    List.length columns = 1%nat /\
    fst run = Raise TypeError /\
    stdout (snd run) =
      [] ++
      [ "Host " +:+ "http://cp.local" +:+ ", directory " +:+ with_slash "/";
        "Size" +:+ String tab "Modified" +:+ String tab "Name" ] ++
      zip_with entry_line
        [ PDict [("name", PStr "code.py"); ("directory", PBool false);
                 ("modified_ns", PInt 1709635445000000000); ("file_size", PInt 22)] ]
        columns.
Proof.
  refine (ls_stops_at_malformed_entry broken_listing parse_json gmtime
            (fun _ => 1709635445) "http://cp.local" "secret" None "/" (initial_world ∅)
            {| status_code := 200; text := json_dumps 4 broken_entries |}
            broken_entries (PStr "lib")
            [ PDict [("name", PStr "code.py"); ("directory", PBool false);
                     ("modified_ns", PInt 1709635445000000000);
                     ("file_size", PInt 22)] ]
            [ PDict [("name", PStr "boot.py"); ("directory", PBool false);
                     ("modified_ns", PInt 1709635445000000000);
                     ("file_size", PInt 3)] ]
            TypeError eq_refl eq_refl _ eq_refl _ _ eq_refl).
  - vm_compute. reflexivity.
  - vm_compute. reflexivity.
  - intros i. vm_compute. discriminate.
Defined.

(** X12. A 200 answer whose body is not JSON, or is JSON without a [files]
    key (or not an object at all), makes [ls] raise the error of the decoder
    or of the lookup before it prints anything: the request is the only
    trace of the run. *)
Theorem ls_prints_nothing_without_files
    net json_loads localtime clock host password units (directory : string)
    (w : World) (resp : Response) :
  let request := {| method := "GET"; url := host +:+ "/fs/" +:+ with_slash directory;
                    auth := Some ("", password);
                    headers := [("Accept", "application/json")]; data := None;
                    timeout := Some 5 |} in
  net request = Responded resp ->
  status_code resp = 200 ->
  (json_loads (text resp) = None ->
   ls net json_loads localtime clock host password units directory w =
     (Raise JSONDecodeError, requested request w)) /\
  (forall data e,
     json_loads (text resp) = Some data ->
     py_getitem data "files" = Raise e ->
     ls net json_loads localtime clock host password units directory w =
       (Raise e, requested request w)).
Proof.
  intros request Hnet Hstatus.
  assert (Hrun : ls net json_loads localtime clock host password units directory w =
                 (data <- decode_json json_loads (text resp) ;;
                  files <- lift (py_getitem data "files") ;;
                  print ("Host " +:+ host +:+ ", directory " +:+
                         (if String.eqb (with_slash directory) ""
                          then "/" else with_slash directory)) ;;
                  print ("Size" +:+ String tab "Modified" +:+ String tab "Name") ;;
                  entries <- lift (py_iter files) ;;
                  for_each entries (ls_entry localtime clock) ;;
                  ls_summary units data) (requested request w)).
  { unfold ls. fold request. rewrite (request_answered _ _ _ _ _ Hnet).
    cbv beta zeta. rewrite Hstatus. reflexivity. }
  rewrite Hrun. split.
  - intros Hjson. unfold bind, decode_json. rewrite Hjson. reflexivity.
  - intros data e Hjson Hfiles. unfold bind, decode_json, lift. rewrite Hjson.
    unfold ret. rewrite Hfiles. reflexivity.
Qed.

Lemma ls_prints_nothing_without_files_witness :
  ls captive_portal parse_json gmtime (fun _ => 0) "http://cp.local" "secret" None "/"
     (initial_world ∅) =
    (Raise JSONDecodeError,
     requested {| method := "GET"; url := "http://cp.local/fs//";
                  auth := Some ("", "secret");
                  headers := [("Accept", "application/json")]; data := None;
                  timeout := Some 5 |} (initial_world ∅)).
Proof.
  exact (proj1 (ls_prints_nothing_without_files captive_portal parse_json gmtime
                  (fun _ => 0) "http://cp.local" "secret" None "/" (initial_world ∅)
                  {| status_code := 200; text := "<html>Sign in</html>" |}
                  eq_refl eq_refl) eq_refl).
Defined.

(** ** The summary in other units *)



(** ** Exact quotients *)

(** The number of binary digits brackets a number between two powers of
    two. *)
Lemma digits2_bounds (p : positive) :
  2 ^ (Zpos (digits2_pos p) - 1) <= Zpos p < 2 ^ Zpos (digits2_pos p).
Proof.
  induction p as [p IH | p IH |]; cbn [digits2_pos].
  - rewrite Pos2Z.inj_succ.
    replace (Z.succ (Zpos (digits2_pos p)) - 1) with (Z.succ (Zpos (digits2_pos p) - 1)) by lia.
    rewrite !Z.pow_succ_r by lia. lia.
  - rewrite Pos2Z.inj_succ.
    replace (Z.succ (Zpos (digits2_pos p)) - 1) with (Z.succ (Zpos (digits2_pos p) - 1)) by lia.
    rewrite !Z.pow_succ_r by lia. lia.
  - cbn. lia.
Qed.

Lemma digits2_unique (p : positive) (k : Z) :
  2 ^ (k - 1) <= Zpos p < 2 ^ k -> Zpos (digits2_pos p) = k.
Proof.
  intros [Hlo Hhi]. pose proof (digits2_bounds p) as [Hlo' Hhi'].
  destruct (Z.lt_trichotomy (Zpos (digits2_pos p)) k) as [Hlt | [Heq | Hgt]].
  - assert (2 ^ Zpos (digits2_pos p) <= 2 ^ (k - 1)) by (apply Z.pow_le_mono_r; lia). lia.
  - exact Heq.
  - destruct (Z.le_gt_cases 0 k) as [Hk | Hk].
    + assert (2 ^ k <= 2 ^ (Zpos (digits2_pos p) - 1)) by (apply Z.pow_le_mono_r; lia). lia.
    + rewrite (Z.pow_neg_r 2 k) in Hhi by lia. lia.
Qed.

Lemma digits2_shift (s m : positive) (k : Z) :
  0 <= k -> Zpos m = Zpos s * 2 ^ k ->
  Zpos (digits2_pos m) = Zpos (digits2_pos s) + k.
Proof.
  intros Hk Hm. apply digits2_unique. rewrite Hm.
  pose proof (digits2_bounds s) as [Hlo Hhi].
  replace (Zpos (digits2_pos s) + k - 1) with (Zpos (digits2_pos s) - 1 + k) by lia.
  rewrite !Z.pow_add_r by lia.
  assert (0 < 2 ^ k) by (apply Z.pow_pos_nonneg; lia). nia.
Qed.

Lemma digits2_product (s d : positive) :
  Zpos (digits2_pos (s * d)) = Zpos (digits2_pos s) + Zpos (digits2_pos d) - 1 \/
  Zpos (digits2_pos (s * d)) = Zpos (digits2_pos s) + Zpos (digits2_pos d).
Proof.
  pose proof (digits2_bounds s) as [Hs Hs']. pose proof (digits2_bounds d) as [Hd Hd'].
  set (a := Zpos (digits2_pos s)) in *. set (b := Zpos (digits2_pos d)) in *.
  assert (Ha : 1 <= a) by (unfold a; lia). assert (Hb : 1 <= b) by (unfold b; lia).
  assert (Hlo : 2 ^ (a + b - 1 - 1) <= Zpos (s * d)).
  { replace (a + b - 1 - 1) with ((a - 1) + (b - 1)) by lia.
    rewrite Z.pow_add_r by lia. rewrite Pos2Z.inj_mul.
    assert (0 < 2 ^ (a - 1)) by (apply Z.pow_pos_nonneg; lia).
    assert (0 < 2 ^ (b - 1)) by (apply Z.pow_pos_nonneg; lia). nia. }
  assert (Hhi : Zpos (s * d) < 2 ^ (a + b)).
  { rewrite Z.pow_add_r by lia. rewrite Pos2Z.inj_mul.
    assert (0 < 2 ^ a) by (apply Z.pow_pos_nonneg; lia).
    assert (0 < 2 ^ b) by (apply Z.pow_pos_nonneg; lia). nia. }
  destruct (Z.lt_ge_cases (Zpos (s * d)) (2 ^ (a + b - 1))) as [H | H].
  - left. apply digits2_unique. lia.
  - right. apply digits2_unique. replace (a + b - 1) with (a + b - 1) in H by lia. lia.
Qed.

Lemma fexp_normal (x : Z) : -1021 <= x -> fexp prec emax x = x - 53.
Proof. unfold fexp, SpecFloat.emin, prec, emax. lia. Qed.

(** A mantissa that needs no shift is kept by the rounding. *)
Lemma round_aux_no_shift (sx : bool) (m : positive) (e : Z) :
  fexp prec emax (Zpos (digits2_pos m) + e) - e <= 0 -> e <= emax - prec ->
  binary_round_aux prec emax sx (Zpos m) e loc_Exact = S754_finite sx m e.
Proof.
  intros Hshift He.
  unfold binary_round_aux, shr_fexp, shr. cbn [Zdigits2 shr_record_of_loc].
  destruct (fexp prec emax (Zpos (digits2_pos m) + e) - e) as [| n | n] eqn:E; try lia;
    cbn [shr_m loc_of_shr_record round_nearest_even Zdigits2 shr_record_of_loc];
    rewrite E; cbn [shr_m];
    apply Z.leb_le in He; rewrite He; reflexivity.
Qed.

(** An even mantissa one bit too long loses its last bit, a zero. *)
Lemma round_aux_shift_one (sx : bool) (p : positive) (e : Z) :
  fexp prec emax (Zpos (digits2_pos (xO p)) + e) - e = 1 -> e + 1 <= emax - prec ->
  binary_round_aux prec emax sx (Zpos (xO p)) e loc_Exact = S754_finite sx p (e + 1).
Proof.
  intros Hshift He.
  unfold binary_round_aux, shr_fexp, shr. cbn [Zdigits2 shr_record_of_loc].
  rewrite Hshift.
  cbn [SpecFloat.iter_pos shr_1 orb shr_m loc_of_shr_record round_nearest_even Zdigits2
       shr_record_of_loc].
  assert (E : fexp prec emax (Zpos (digits2_pos p) + (e + 1)) - (e + 1) = 0).
  { cbn [digits2_pos] in Hshift. rewrite Pos2Z.inj_succ in Hshift.
    replace (Zpos (digits2_pos p) + (e + 1)) with (Z.succ (Zpos (digits2_pos p)) + e) by lia.
    lia. }
  rewrite E. cbn [shr_m]. apply Z.leb_le in He. rewrite He. reflexivity.
Qed.

(** Dividing a multiple [s * d] by [d] gives the float of [s] itself when
    [s] fits the 53 bits of the mantissa. *)
Lemma float_of_ratio_multiple (neg : bool) (s d : positive) :
  Zpos s < 2 ^ 53 ->
  exists m e, float_of_ratio neg (s * d) d = S754_finite neg m e /\
              e <= 0 /\ Zpos m = Zpos s * 2 ^ (- e).
Proof.
  intros Hs.
  assert (Hds : 1 <= Zpos (digits2_pos s) <= 53).
  { split; [lia |]. pose proof (digits2_bounds s) as [Hlo _].
    destruct (Z.le_gt_cases (Zpos (digits2_pos s)) 53) as [H | H]; [exact H |].
    assert (2 ^ 53 <= 2 ^ (Zpos (digits2_pos s) - 1)) by (apply Z.pow_le_mono_r; lia). lia. }
  unfold float_of_ratio, SFdiv, SFdiv_core_binary. cbn [Zdigits2].
  rewrite xorb_false_r.
  rewrite !Z.add_0_r. change (0 - 0) with 0.
  set (ds := Zpos (digits2_pos s)) in *.
  set (k := 53 - (Zpos (digits2_pos (s * d)) - Zpos (digits2_pos d))).
  assert (Hk : k = 53 - ds \/ k = 54 - ds).
  { unfold k. destruct (digits2_product s d) as [H | H]; fold ds in H; lia. }
  assert (He' : Z.min (fexp prec emax (Zpos (digits2_pos (s * d)) - Zpos (digits2_pos d))) 0
                = - k).
  { rewrite fexp_normal by (unfold k in Hk; lia). unfold k in *. lia. }
  rewrite He'. replace (0 - - k) with k by lia.
  assert (Hk0 : 0 <= k) by lia.
  assert (Hm' : match k with
                | 0 => Zpos (s * d)
                | Zpos _ => Z.shiftl (Zpos (s * d)) k
                | Zneg _ => 0
                end = (Zpos s * 2 ^ k) * Zpos d).
  { destruct k as [| n | n] eqn:Ek; [| | lia].
    - rewrite Pos2Z.inj_mul. change (2 ^ 0) with 1. lia.
    - rewrite Z.shiftl_mul_pow2 by lia. rewrite Pos2Z.inj_mul. ring. }
  rewrite Hm'.
  destruct (Z.div_eucl (Zpos s * 2 ^ k * Zpos d) (Zpos d)) as [q r] eqn:Ediv.
  assert (Hq : q = Zpos s * 2 ^ k).
  { transitivity (Zpos s * 2 ^ k * Zpos d / Zpos d).
    - unfold Z.div. rewrite Ediv. reflexivity.
    - apply Z.div_mul. lia. }
  assert (Hr : r = 0).
  { transitivity ((Zpos s * 2 ^ k * Zpos d) mod Zpos d).
    - unfold Z.modulo. rewrite Ediv. reflexivity.
    - apply Z.mod_mul. lia. }
  subst r.
  assert (Hloc : new_location (Zpos d) 0 = loc_Exact).
  { unfold new_location, new_location_even, new_location_odd.
    destruct (Z.even (Zpos d)); reflexivity. }
  rewrite Hloc.
  assert (Hpow : 0 < 2 ^ k) by (apply Z.pow_pos_nonneg; lia).
  destruct Hk as [Hk | Hk].
  - (* the quotient has exactly 53 bits or fewer: no shift *)
    assert (Hqpos : q = Zpos (Z.to_pos q)) by (rewrite Z2Pos.id; lia).
    rewrite Hqpos.
    assert (Hdig : Zpos (digits2_pos (Z.to_pos q)) = ds + k).
    { apply digits2_shift; [lia |]. rewrite <- Hqpos. exact Hq. }
    exists (Z.to_pos q), (- k). split; [| split].
    + apply round_aux_no_shift.
      * rewrite Hdig, fexp_normal by lia. lia.
      * unfold emax, prec. lia.
    + lia.
    + rewrite <- Hqpos, Hq. f_equal. f_equal. lia.
  - (* one bit more: the last bit, a zero, is dropped *)
    assert (Hk1 : 1 <= k) by lia.
    assert (Hhalf : 0 < Zpos s * 2 ^ (k - 1)).
    { assert (0 < 2 ^ (k - 1)) by (apply Z.pow_pos_nonneg; lia). lia. }
    set (p := Z.to_pos (Zpos s * 2 ^ (k - 1))).
    assert (Hp : Zpos p = Zpos s * 2 ^ (k - 1)) by (unfold p; rewrite Z2Pos.id; lia).
    assert (Hqp : q = Zpos (xO p)).
    { rewrite Pos2Z.inj_xO, Hp, Hq.
      replace k with (Z.succ (k - 1)) at 1 by lia. rewrite Z.pow_succ_r by lia. ring. }
    rewrite Hqp.
    assert (Hdig : Zpos (digits2_pos (xO p)) = ds + k).
    { apply digits2_shift; [lia |]. rewrite <- Hqp. exact Hq. }
    exists p, (- k + 1). split; [| split].
    + apply round_aux_shift_one.
      * rewrite Hdig, fexp_normal by lia. lia.
      * unfold emax, prec. lia.
    + lia.
    + rewrite Hp. f_equal. f_equal. lia.
Qed.

Lemma float_floor_exact (neg : bool) (s m : positive) (e : Z) :
  e <= 0 -> Zpos m = Zpos s * 2 ^ (- e) ->
  float_floor (S754_finite neg m e) = if neg then Zneg s else Zpos s.
Proof.
  intros He Hm. unfold float_floor.
  assert (Hpow : 0 < 2 ^ (- e)) by (apply Z.pow_pos_nonneg; lia).
  destruct (0 <=? e) eqn:E.
  - apply Z.leb_le in E. assert (e = 0) by lia. subst e.
    change (2 ^ (- 0)) with 1 in Hm. change (2 ^ 0) with 1.
    destruct neg; [rewrite <- !Pos2Z.opp_pos |]; lia.
  - destruct neg.
    + rewrite <- !Pos2Z.opp_pos, Hm.
      replace (- (Zpos s * 2 ^ (- e))) with ((- Zpos s) * 2 ^ (- e)) by ring.
      apply Z.div_mul. lia.
    + rewrite Hm. apply Z.div_mul. lia.
Qed.

(** True division of a multiple of [d] by [d], for a quotient of at most 53
    bits: the float is the quotient, nothing is rounded. *)
Lemma truediv_multiple (s : Z) (d : positive) :
  - 2 ^ 53 < s < 2 ^ 53 ->
  exists f, py_truediv_int (PInt (s * Zpos d)) d = Ok f /\ float_floor f = s.
Proof.
  intros Hs. destruct s as [| p | p].
  - exists (S754_zero false). split; reflexivity.
  - destruct (float_of_ratio_multiple false p d) as [m [e [Hf [He Hm]]]]; [lia |].
    exists (S754_finite false m e). split.
    + change (Zpos p * Zpos d) with (Zpos (p * d)). unfold py_truediv_int.
      rewrite Hf. reflexivity.
    + apply (float_floor_exact false p m e He Hm).
  - destruct (float_of_ratio_multiple true p d) as [m [e [Hf [He Hm]]]]; [lia |].
    exists (S754_finite true m e). split.
    + change (Zneg p * Zpos d) with (Zneg (p * d)). unfold py_truediv_int.
      rewrite Hf. reflexivity.
    + apply (float_floor_exact true p m e He Hm).
Qed.

(** X14. An entry whose [modified_ns] is a whole number [s] of seconds, of
    at most 53 bits, is listed with the local time of the second [s]
    itself: the division by 1000000000 is exact for it, so the time shown
    never moves to a neighbouring second. *)
Theorem ls_entry_whole_seconds localtime clock (file is_dir name : pyval) (s : Z)
    (t now : struct_time) (w : World) :
  py_getitem file "directory" = Ok is_dir ->
  py_getitem file "modified_ns" = Ok (PInt (s * 1000000000)) ->
  (py_truthy is_dir = false -> exists size, py_getitem file "file_size" = Ok size) ->
  py_getitem file "name" = Ok name ->
  - 2 ^ 53 < s < 2 ^ 53 ->
  localtime (clock (clock_reads w)) = Some now ->
  localtime s = Some t ->
  ls_entry localtime clock file w =
    (Ok tt, printed (entry_line file (modified_column t now)) (ticked w)).
Proof.
  intros Hdir Hns Hsize Hname Hs Hnow Ht.
  destruct (truediv_multiple s 1000000000 Hs) as [f [Hf Hfloor]].
  rewrite <- Hfloor in Ht.
  destruct (py_truthy is_dir) eqn:Edir.
  - rewrite (ls_entry_line localtime clock file is_dir PNone name _ f t now w
               Hdir Hns (fun H => False_ind _ (eq_true_false_abs _ Edir H))
               Hname Hnow Hf Ht).
    unfold entry_line, entry_size, entry_is_dir, entry_name.
    rewrite Hdir, Hname, Edir. reflexivity.
  - destruct (Hsize eq_refl) as [size Hfile].
    rewrite (ls_entry_line localtime clock file is_dir size name _ f t now w
               Hdir Hns (fun _ => Hfile) Hname Hnow Hf Ht).
    unfold entry_line, entry_size, entry_is_dir, entry_name.
    rewrite Hdir, Hname, Hfile, Edir. reflexivity.
Qed.

Lemma ls_entry_whole_seconds_witness :
  ls_entry gmtime (fun _ => 1709635445) last_second_entry (initial_world ∅) =
    (Ok tt,
     printed (entry_line last_second_entry
                (modified_column
                   {| tm_year := 2023; tm_mon := 12; tm_mday := 31;
                      tm_hour := 23; tm_min := 59; tm_sec := 59 |}
                   {| tm_year := 2024; tm_mon := 3; tm_mday := 5;
                      tm_hour := 10; tm_min := 44; tm_sec := 5 |}))
             (ticked (initial_world ∅))).
Proof.
  refine (ls_entry_whole_seconds gmtime (fun _ => 1709635445) last_second_entry
            (PBool false) (PStr "boot.py") 1704067199 _ _ (initial_world ∅)
            eq_refl eq_refl (fun _ => ex_intro _ (PInt 22) eq_refl) eq_refl _
            eq_refl eq_refl).
  split; reflexivity.
Defined.

(** ** The width of the modified column *)

Lemma length_append (a b : string) :
  String.length (a +:+ b) = (String.length a + String.length b)%nat.
Proof. induction a as [| c a IH]; simpl; [reflexivity | rewrite IH; reflexivity]. Qed.

(** A test that holds on every number of a range holds on each of them. *)
Lemma range_check (P : Z -> bool) (lo len : Z) :
  forallb P (List.map (fun i => lo + Z.of_nat i) (seq 0 (Z.to_nat len))) = true ->
  forall n, lo <= n < lo + len -> P n = true.
Proof.
  intros H n Hn. rewrite forallb_forall in H. apply H.
  apply in_map_iff. exists (Z.to_nat (n - lo)). split; [lia |].
  apply in_seq. lia.
Qed.

Lemma two_digits (n : Z) :
  0 <= n <= 99 -> String.length (zero_pad 2 (str_int n)) = 2%nat.
Proof.
  intros Hn. apply Nat.eqb_eq.
  apply (range_check (fun n => Nat.eqb (String.length (zero_pad 2 (str_int n))) 2) 0 100);
    [vm_compute; reflexivity | lia].
Qed.

Lemma four_digits (y : Z) :
  1000 <= y <= 9999 -> String.length (str_int y) = 4%nat.
Proof.
  intros Hy. apply Nat.eqb_eq.
  apply (range_check (fun y => Nat.eqb (String.length (str_int y)) 4) 1000 9000);
    [vm_compute; reflexivity | lia].
Qed.

Lemma month_three_letters (m : Z) :
  1 <= m <= 12 -> String.length (month_abbr m) = 3%nat.
Proof.
  intros Hm. apply Nat.eqb_eq.
  apply (range_check (fun m => Nat.eqb (String.length (month_abbr m)) 3) 1 12);
    [vm_compute; reflexivity | lia].
Qed.

(** X15. The modified column is twelve characters wide in both of its forms,
    for every calendar time of a year of four digits: the lines of a
    listing keep their columns whether an entry is of this year or not. *)
Theorem modified_column_width (t current_time : struct_time) :
  calendar_time t = true ->
  String.length (modified_column t current_time) = 12%nat.
Proof.
  unfold calendar_time. intros H.
  repeat (apply andb_prop in H; destruct H as [H ?]).
  repeat match goal with
         | H : (_ <=? _) = true |- _ => apply Z.leb_le in H
         end.
  rewrite modified_column_forms.
  destruct (tm_year t =? tm_year current_time);
    rewrite !length_append, ?two_digits, ?four_digits, ?month_three_letters by lia;
    reflexivity.
Qed.

Lemma modified_column_width_witness :
  String.length
    (modified_column
       {| tm_year := 2023; tm_mon := 12; tm_mday := 31;
          tm_hour := 23; tm_min := 59; tm_sec := 59 |}
       {| tm_year := 2024; tm_mon := 3; tm_mday := 5;
          tm_hour := 10; tm_min := 44; tm_sec := 5 |}) = 12%nat.
Proof.
  exact (modified_column_width
           {| tm_year := 2023; tm_mon := 12; tm_mday := 31;
              tm_hour := 23; tm_min := 59; tm_sec := 59 |}
           {| tm_year := 2024; tm_mon := 3; tm_mday := 5;
              tm_hour := 10; tm_min := 44; tm_sec := 5 |} eq_refl).
Defined.
